(** * consul-k8s, [cli/helm/chart.go]: the embedded chart loader

    A shallow embedding of [readFile], [readChartFiles], [FetchChartValues]
    and the helper [a], together with the parts of the Go standard library
    they call ([path/filepath] as built for Unix, [io/fs], [embed]), and the
    properties of the chart-file collector stated in the specification.

    Go values are modelled as follows: a string is a [string] of bytes, a
    slice is a [list] ([nil] is the empty list), a pointer is an [option],
    and a function returning [(T, error)] returns a pair whose second
    component is [None] for a [nil] error. *)

From Stdlib Require Import String Ascii List Bool Arith Lia.
From Stdlib Require Import Strings.Byte.
Import ListNotations.
Local Open Scope string_scope.
Local Open Scope list_scope.

(** ** Go values *)

Module go.

(** A pointer is either [nil] or the address of a value. *)
Definition ptr (A : Type) : Type := option A.
Definition nil {A : Type} : ptr A := None.

(** Values of the [error] interface that this program can see. *)
Inductive error : Type :=
| errorString (s : string)              (* errors.New(s) *)
| ErrNotExist                           (* fs.ErrNotExist *)
| PathError (Op Path : string) (Err : error).  (* &fs.PathError{...} *)

(** A map value is either the [nil] map or a map with contents. *)
Definition mapOf (M : Type) : Type := option M.

(** [strings.Join(elems, sep)]. *)
Definition strings_Join (elems : list string) (sep : string) : string :=
  String.concat sep elems.

(** [[]byte(s)]. *)
Definition bytes_of (s : string) : list byte := list_byte_of_string s.

End go.

(** ** [path/filepath] on Unix *)

Module filepath.

Definition Separator : ascii := "/"%char.

Definition IsPathSeparator (c : ascii) : bool := Ascii.eqb c Separator.

(** The path elements that the scanning loops of [Clean] and [Rel] walk
    over: the maximal runs of bytes between separators.  A separator at
    the very end closes the last element and opens no new one. *)
Fixpoint elems (path : string) : list string :=
  match path with
  | EmptyString => []
  | String c rest =>
      if IsPathSeparator c then EmptyString :: elems rest
      else match elems rest with
           | [] => [String c EmptyString]
           | e :: es => String c e :: es
           end
  end.

Definition rooted (path : string) : bool :=
  match path with
  | String c _ => IsPathSeparator c
  | EmptyString => false
  end.

(** No byte of [e] is a separator. *)
Fixpoint sepFree (e : string) : bool :=
  match e with
  | EmptyString => true
  | String c rest => negb (IsPathSeparator c) && sepFree rest
  end.

(** A real path element: not empty, no separator in it, neither [.] nor
    [..]. *)
Definition realElem (e : string) : bool :=
  sepFree e && negb (e =? "") && negb (e =? ".") && negb (e =? "..").

(** [out.w > dotdot]: the output buffer ends in an element that a [..]
    may remove.  The buffer is kept as a stack, last element first. *)
Definition canBacktrack (out : list string) : bool :=
  match out with
  | top :: _ => negb (top =? "..")
  | [] => false
  end.

(** One turn of the [switch] in [Clean]'s loop. *)
Definition cleanElem (isRooted : bool) (out : list string) (e : string)
  : list string :=
  if e =? "" then out                      (* empty path element *)
  else if e =? "." then out                (* . element *)
  else if e =? ".." then                   (* .. element *)
    if canBacktrack out then tl out
    else if negb isRooted then e :: out
    else out
  else e :: out.                           (* real path element *)

(** What [Clean]'s loop leaves in its buffer: the cleaned elements of
    [path], last first. *)
Definition cleanStack (isRooted : bool) (path : string) : list string :=
  fold_left (cleanElem isRooted) (elems path) [].

(** The bytes of the buffer: a leading separator for a rooted path, then
    the elements with a separator between them. *)
Definition render (isRooted : bool) (out : list string) : string :=
  ((if isRooted then "/" else "") ++ String.concat "/" (rev out))%string.

(** [Clean] returns the shortest path name equivalent to [path] by purely
    lexical processing. *)
Definition Clean (path : string) : string :=
  if path =? "" then "."
  else
    let out := cleanStack (rooted path) path in
    let s := render (rooted path) out in
    (* Turn empty string into "." *)
    if s =? "" then "." else s.

(** [Join] skips leading empty elements, joins what follows with the
    separator and cleans the result. *)
Fixpoint Join (elem : list string) : string :=
  match elem with
  | [] => ""
  | e :: rest =>
      if e =? "" then Join rest
      else Clean (go.strings_Join elem "/")
  end.

(** The loop of [Rel] that positions both paths at their first differing
    elements.  It returns [base[b0:bi]], the elements of [base[b0:]] and
    the elements of [targ[t0:]]. *)
Fixpoint relLoop (base targ : list string)
  : string * list string * list string :=
  match base, targ with
  | b :: base', t :: targ' =>
      if t =? b then relLoop base' targ' else (b, base, targ)
  | _, _ => ("", base, targ)
  end.

Fixpoint dotdots (seps : nat) : string :=
  match seps with
  | O => ""
  | S n => ("/.." ++ dotdots n)%string
  end.

Definition relError (basepath targpath : string) : go.error :=
  go.errorString
    ("Rel: can't make " ++ targpath ++ " relative to " ++ basepath)%string.

Definition Rel (basepath targpath : string) : string * option go.error :=
  let base := Clean basepath in
  let targ := Clean targpath in
  if targ =? base then (".", None)
  else
    let base := if base =? "." then "" else base in
    let baseSlashed := rooted base in
    let targSlashed := rooted targ in
    if negb (Bool.eqb baseSlashed targSlashed)
    then ("", Some (relError basepath targpath))
    else
      let '(cur, brest, trest) := relLoop (elems base) (elems targ) in
      if cur =? ".." then ("", Some (relError basepath targpath))
      else
        match brest with
        | _ :: _ =>
            (* Base elements left. Must go up before going down. *)
            let seps := length brest - 1 in
            ((".." ++ dotdots seps ++
              match trest with
              | [] => ""
              | _ :: _ => "/" ++ String.concat "/" trest
              end)%string, None)
        | [] => (String.concat "/" trest, None)
        end.

End filepath.

(** ** [io/fs] *)

Module fs.

(** The elements of a slash-separated name: the first one and those that
    follow a slash (an empty name has one, empty, element). *)
Fixpoint cutAll (name : string) : string * list string :=
  match name with
  | EmptyString => (EmptyString, [])
  | String c rest =>
      let '(e, es) := cutAll rest in
      if Ascii.eqb c "/" then (EmptyString, e :: es) else (String c e, es)
  end.

Definition validElem (elem : string) : bool :=
  negb ((elem =? "") || (elem =? ".") || (elem =? "..")).

(** [ValidPath]: the name is ["."], or every element of it is neither
    empty nor [.] nor [..].  (The check that the name is UTF-8 is left
    out: names of embedded files are UTF-8, so it never changes what a
    lookup in an embedded tree finds.) *)
Definition ValidPath (name : string) : bool :=
  if name =? "." then true
  else
    let '(e, es) := cutAll name in
    forallb validElem (e :: es).

End fs.

(** ** [embed] *)

Module embed.

(** One embedded file.  A directory has a name that ends in a slash. *)
Record file : Type := { name : string; data : string }.

(** The embedded tree: the list of its files and directories, in the
    order in which the compiler lays them out. *)
Record FS : Type := { files : list file }.

(** [stringslite.CutSuffix(name, "/")]. *)
Fixpoint cutSlash (nm : string) : string * bool :=
  match nm with
  | EmptyString => (EmptyString, false)
  | String c EmptyString =>
      if Ascii.eqb c "/" then (EmptyString, true) else (nm, false)
  | String c rest =>
      let '(n, isDir) := cutSlash rest in (String c n, isDir)
  end.

Definition trimSlash (nm : string) : string := fst (cutSlash nm).

(** [nm[:i]] and [nm[i+1:]] for the last slash [i] of [nm], if any. *)
Fixpoint cutLast (nm : string) : option string * string :=
  match nm with
  | EmptyString => (None, EmptyString)
  | String c rest =>
      match cutLast rest with
      | (Some dir, elem) => (Some (String c dir), elem)
      | (None, elem) =>
          if Ascii.eqb c "/" then (Some EmptyString, elem)
          else (None, String c elem)
      end
  end.

(** [split] cuts a name into its directory and its last element, and
    tells whether the name is that of a directory. *)
Definition split (nm : string) : string * string * bool :=
  let '(nm, isDir) := cutSlash nm in
  match cutLast nm with
  | (None, _) => (".", nm, isDir)
  | (Some dir, elem) => (dir, elem, isDir)
  end.

Definition Name (f : file) : string :=
  let '(_, elem, _) := split (name f) in elem.

Definition IsDir (f : file) : bool :=
  let '(_, _, isDir) := split (name f) in isDir.

Definition dirOf (f : file) : string :=
  let '(dir, _, _) := split (name f) in dir.

(** The path under which a file is found: its name without the slash
    that marks a directory. *)
Definition path (f : file) : string := trimSlash (name f).

Definition dotFile : file := {| name := "./"; data := "" |}.

(** [lookup] returns the file of that name, or [nil].  The Go code finds
    it by binary search in the sorted list; the scan below finds the same
    file. *)
Definition lookup (f : FS) (nm : string) : go.ptr file :=
  if negb (fs.ValidPath nm) then go.nil
  else if nm =? "." then Some dotFile
  else find (fun fl => trimSlash (name fl) =? nm) (files f).

(** [readDir] returns the files of directory [dir], in list order. *)
Definition readDir (f : FS) (dir : string) : list file :=
  filter (fun fl => dirOf fl =? dir) (files f).

(** An open file or an open directory (read offsets left out). *)
Inductive File : Type :=
| openFile (f : file)
| openDir (f : file) (entries : list file).

Definition Open (f : FS) (nm : string) : go.ptr File * option go.error :=
  match lookup f nm with
  | None => (go.nil, Some (go.PathError "open" nm go.ErrNotExist))
  | Some fl =>
      if IsDir fl then (Some (openDir fl (readDir f nm)), None)
      else (Some (openFile fl), None)
  end.

(** Directory entries are the files themselves. *)
Definition ReadDir (f : FS) (nm : string) : list file * option go.error :=
  match Open f nm with
  | (_, Some err) => ([], Some err)
  | (Some (openDir _ entries), None) => (entries, None)
  | (_, None) =>
      ([], Some (go.PathError "read" nm (go.errorString "not a directory")))
  end.

Definition ReadFile (f : FS) (nm : string) : list byte * option go.error :=
  match Open f nm with
  | (_, Some err) => ([], Some err)
  | (Some (openFile fl), None) => (go.bytes_of (data fl), None)
  | (_, None) =>
      ([], Some (go.PathError "read" nm (go.errorString "is a directory")))
  end.

Fixpoint distinct (l : list string) : bool :=
  match l with
  | [] => true
  | x :: l' => negb (existsb (String.eqb x) l') && distinct l'
  end.

(** What holds of every tree that the compiler embeds: each entry has a
    valid path, no two entries have the same path, and the directory of
    each entry is an entry too.  (The list is sorted as well; the scan in
    [lookup] does not depend on it.) *)
Definition wellFormed (f : FS) : bool :=
  forallb (fun fl => fs.ValidPath (path fl) && negb (path fl =? "."))
    (files f)
  && distinct (map path (files f))
  && forallb
       (fun fl =>
          (dirOf fl =? ".")
          || existsb (fun g => name g =? dirOf fl ++ "/") (files f))
       (files f).

End embed.

(** ** [helm.sh/helm/v3/pkg/chart/loader] *)

Module loader.

Record BufferedFile : Type := { Name : string; Data : list byte }.

End loader.

(** ** [cli/helm/chart.go]: reading the chart files *)

Module helm.

Definition chartFileName : string := "Chart.yaml".
Definition valuesFileName : string := "values.yaml".
Definition templatesDirName : string := "templates".

(** [readFile] reads the contents of the file from the embedded file
    system and returns a buffered file named relative to [pathPrefix]. *)
Definition readFile (chart : embed.FS) (filename pathPrefix : string)
  : go.ptr loader.BufferedFile * option go.error :=
  let '(bytes, err) := embed.ReadFile chart filename in
  match err with
  | Some err => (go.nil, Some err)
  | None =>
      (* Remove the path prefix. *)
      let '(rel, err) := filepath.Rel pathPrefix filename in
      match err with
      | Some err => (go.nil, Some err)
      | None =>
          (Some {| loader.Name := rel; loader.Data := bytes |}, None)
      end
  end.

(** The first loop of [readChartFiles], over the names still to load. *)
Fixpoint readRequired (chart : embed.FS) (chartDirName : string)
    (names : list string) (chartFiles : list (go.ptr loader.BufferedFile))
  : list (go.ptr loader.BufferedFile) * option go.error :=
  match names with
  | [] => (chartFiles, None)
  | f :: names' =>
      let '(file, err) :=
        readFile chart (filepath.Join [chartDirName; f]) chartDirName in
      match err with
      | Some err => ([], Some err)
      | None => readRequired chart chartDirName names' (chartFiles ++ [file])
      end
  end.

(** The second loop of [readChartFiles], over the entries still to
    visit. *)
Fixpoint readTemplates (chart : embed.FS) (chartDirName : string)
    (dirs : list embed.file) (chartFiles : list (go.ptr loader.BufferedFile))
  : list (go.ptr loader.BufferedFile) * option go.error :=
  match dirs with
  | [] => (chartFiles, None)
  | f :: dirs' =>
      if embed.IsDir f then
        (* We only need to include files in the templates directory. *)
        readTemplates chart chartDirName dirs' chartFiles
      else
        let '(file, err) :=
          readFile chart
            (filepath.Join [chartDirName; templatesDirName; embed.Name f])
            chartDirName in
        match err with
        | Some err => ([], Some err)
        | None =>
            readTemplates chart chartDirName dirs' (chartFiles ++ [file])
        end
  end.

(** [readChartFiles] reads the chart files from the embedded file system
    into buffered files whose names have the chart directory stripped. *)
Definition readChartFiles (chart : embed.FS) (chartDirName : string)
  : list (go.ptr loader.BufferedFile) * option go.error :=
  (* Load Chart.yaml and values.yaml first. *)
  match readRequired chart chartDirName [chartFileName; valuesFileName] []
  with
  | (_, Some err) => ([], Some err)
  | (chartFiles, None) =>
      (* Now load everything under templates/. *)
      let '(dirs, err) :=
        embed.ReadDir chart
          (filepath.Join [chartDirName; templatesDirName]) in
      match err with
      | Some err => ([], Some err)
      | None => readTemplates chart chartDirName dirs chartFiles
      end
  end.

(** *** Loading the chart

    [loader.LoadFiles] and the [chart.Chart] it builds belong to the Helm
    SDK; [LoadChart] is modelled over any such loader. *)

Section Load.

Variable Chart : Type.
Variable LoadFiles :
  list (go.ptr loader.BufferedFile) -> go.ptr Chart * option go.error.

(** [LoadChart] will attempt to load a Helm chart from the embedded file
    system. *)
Definition LoadChart (chart : embed.FS) (chartDirName : string)
  : go.ptr Chart * option go.error :=
  let '(chartFiles, err) := readChartFiles chart chartDirName in
  match err with
  | Some err => (go.nil, Some err)
  | None => LoadFiles chartFiles
  end.

End Load.

Arguments LoadChart {Chart} LoadFiles chart chartDirName.

(** *** Fetching the values of an installed release

    [FetchChartValues] and [a] call into the Helm SDK, which talks to the
    cluster.  A program is the tree of the calls it makes; each call hands
    its answer to the rest of the program. *)

Section Release.

(** [action.Configuration], [cli.EnvSettings], [action.DebugLog] and the
    contents of a [map[string]interface{}] are opaque here. *)
Variables Configuration EnvSettings DebugLog Values : Type.

(** [new(action.Configuration)] points to the zero configuration. *)
Variable zeroConfiguration : Configuration.

(** [release.Release], of which only [Config] is read. *)
Record Release : Type := { Config : go.mapOf Values }.

(** [action.Status], as [action.NewStatus] builds it. *)
Record Status : Type := { cfg : go.ptr Configuration }.

Definition NewStatus (cfg : go.ptr Configuration) : go.ptr Status :=
  Some {| cfg := cfg |}.

(** The calls that leave this file. *)
Inductive call : Type :=
| InitActionConfig (actionConfig : go.ptr Configuration)
    (namespace : string) (settings : go.ptr EnvSettings) (logger : DebugLog)
| StatusRun (status : go.ptr Status) (name : string).

(** What each call answers. *)
Definition answer (c : call) : Type :=
  match c with
  | InitActionConfig _ _ _ _ => (go.ptr Configuration * option go.error)%type
  | StatusRun _ _ => (go.ptr Release * option go.error)%type
  end.

Inductive prog (A : Type) : Type :=
| Ret (a : A)
| Panic (msg : string)
| Do (c : call) (k : answer c -> prog A).

Arguments Ret {A} a.
Arguments Panic {A} msg.
Arguments Do {A} c k.

Fixpoint bind {A B : Type} (p : prog A) (f : A -> prog B) : prog B :=
  match p with
  | Ret a => f a
  | Panic msg => Panic msg
  | Do c k => Do c (fun r => bind (k r) f)
  end.

Definition perform (c : call) : prog (answer c) := Do c Ret.

Notation "' pat <- p ;; q" :=
  (bind p (fun x => match x with pat => q end))
  (at level 61, pat pattern, p at next level, right associativity).

(** [release.Config], which panics on a [nil] release. *)
Definition getConfig (release : go.ptr Release) : prog (go.mapOf Values) :=
  match release with
  | None => Panic "invalid memory address or nil pointer dereference"
  | Some r => Ret (Config r)
  end.

(** [FetchChartValues] will attempt to fetch the values from the
    currently installed Helm chart. *)
Definition FetchChartValues (namespace name : string)
    (settings : go.ptr EnvSettings) (uiLogger : DebugLog)
  : prog (go.mapOf Values * option go.error) :=
  let cfg := Some zeroConfiguration in
  '(cfg, err) <- perform (InitActionConfig cfg namespace settings uiLogger) ;;
  match err with
  | Some err => Ret (go.nil, Some err)
  | None =>
      let status := NewStatus cfg in
      '(release, err) <- perform (StatusRun status name) ;;
      match err with
      | Some err => Ret (go.nil, Some err)
      | None =>
          bind (getConfig release) (fun config => Ret (config, None))
      end
  end.

Definition a (config : go.ptr Configuration) (name : string)
  : prog (go.mapOf Values * option go.error) :=
  let status := NewStatus config in
  '(release, err) <- perform (StatusRun status name) ;;
  match err with
  | Some err => Ret (go.nil, Some err)
  | None =>
      bind (getConfig release) (fun config => Ret (config, None))
  end.

(** The Helm SDK and the cluster behind it: each call answers and may
    change the state of the world. *)
Record SDK (W : Type) : Type := {
  answerTo : forall c : call, W -> answer c * W
}.

Inductive outcome (A : Type) : Type :=
| Returned (a : A)
| Panicked (msg : string).

Arguments Returned {A} a.
Arguments Panicked {A} msg.

(** Running a program against the world: its outcome, the world it
    leaves, and the calls it made, in order. *)
Fixpoint run {W A : Type} (sdk : SDK W) (p : prog A) (w : W)
  : outcome A * W * list call :=
  match p with
  | Ret a => (Returned a, w, [])
  | Panic msg => (Panicked msg, w, [])
  | Do c k =>
      let '(r, w1) := answerTo W sdk c w in
      let '(o, w2, calls) := run sdk (k r) w1 in
      (o, w2, c :: calls)
  end.

Definition isStatusRun (c : call) : bool :=
  match c with
  | StatusRun _ _ => true
  | InitActionConfig _ _ _ _ => false
  end.

End Release.

Arguments Ret {Configuration EnvSettings DebugLog Values A} a.
Arguments Panic {Configuration EnvSettings DebugLog Values A} msg.
Arguments Do {Configuration EnvSettings DebugLog Values A} c k.
Arguments InitActionConfig {Configuration EnvSettings DebugLog}
  actionConfig namespace settings logger.
Arguments StatusRun {Configuration EnvSettings DebugLog} status name.
Arguments NewStatus {Configuration} cfg.
Arguments Config {Values} r.
Arguments getConfig {Configuration EnvSettings DebugLog Values} release.
Arguments FetchChartValues {Configuration EnvSettings DebugLog Values}
  zeroConfiguration namespace name settings uiLogger.
Arguments a {Configuration EnvSettings DebugLog Values} config name.
Arguments answerTo {Configuration EnvSettings DebugLog Values W} s c _.
Arguments run {Configuration EnvSettings DebugLog Values W A} sdk p w.
Arguments Returned {A} a.
Arguments Panicked {A} msg.
Arguments isStatusRun {Configuration EnvSettings DebugLog} c.

End helm.

(** ** The scenario of the specification

    The tree of the scenario, in the order in which the compiler lays out an
    embedded tree (by directory, then by name); the sub-directory holds one
    file, as an embedded directory is never empty. *)

Definition demoTree : embed.FS :=
  {| embed.files :=
      [ {| embed.name := "charts/"; embed.data := "" |};
        {| embed.name := "charts/demo/"; embed.data := "" |};
        {| embed.name := "charts/demo/Chart.yaml";
           embed.data := "name: demo" |};
        {| embed.name := "charts/demo/templates/"; embed.data := "" |};
        {| embed.name := "charts/demo/values.yaml";
           embed.data := "replicas: 1" |};
        {| embed.name := "charts/demo/templates/sub/"; embed.data := "" |};
        {| embed.name := "charts/demo/templates/svc.yaml";
           embed.data := "kind: Service" |};
        {| embed.name := "charts/demo/templates/sub/deep.yaml";
           embed.data := "kind: Pod" |} ] |}.

(** Two more trees: the scenario without [values.yaml], and without the
    [templates] directory. *)

Definition demoNoValues : embed.FS :=
  {| embed.files :=
      [ {| embed.name := "charts/"; embed.data := "" |};
        {| embed.name := "charts/demo/"; embed.data := "" |};
        {| embed.name := "charts/demo/Chart.yaml";
           embed.data := "name: demo" |};
        {| embed.name := "charts/demo/templates/"; embed.data := "" |};
        {| embed.name := "charts/demo/templates/svc.yaml";
           embed.data := "kind: Service" |} ] |}.

Definition demoNoTemplates : embed.FS :=
  {| embed.files :=
      [ {| embed.name := "charts/"; embed.data := "" |};
        {| embed.name := "charts/demo/"; embed.data := "" |};
        {| embed.name := "charts/demo/Chart.yaml";
           embed.data := "name: demo" |};
        {| embed.name := "charts/demo/values.yaml";
           embed.data := "replicas: 1" |} ] |}.

(** A cluster in which every release is installed with one value; the
    state of this world counts the calls it has answered. *)
Definition demoSDK : helm.SDK string unit unit (list (string * string)) nat :=
  {| helm.answerTo := fun c w =>
       match c as c0
         return (helm.answer string unit unit (list (string * string)) c0 * nat)
       with
       | helm.InitActionConfig cfg namespace _ _ =>
           ((Some namespace, None), S w)
       | helm.StatusRun _ name =>
           ((Some {| helm.Config := Some [("release", name)] |}, None), S w)
       end |}.

(** ** Auxiliary definitions for the proofs *)

(** All the elements of a slash-separated name, as [fs.ValidPath] walks
    over them. *)
Definition fields (name : string) : list string :=
  let '(e, es) := fs.cutAll name in e :: es.

(** The shape of [Clean]'s buffer: real elements on top of a run of [..]
    elements, which a rooted path never has. *)
Inductive wfStack (r : bool) : list string -> Prop :=
| wf_nil : wfStack r []
| wf_dotdot st :
    r = false -> filepath.canBacktrack st = false -> wfStack r st ->
    wfStack r (".." :: st)
| wf_real e st :
    filepath.realElem e = true -> wfStack r st -> wfStack r (e :: st).

(** [Clean]'s result for a buffer: its bytes, or ["."] when it is empty. *)
Definition renderDot (r : bool) (st : list string) : string :=
  if filepath.render r st =? "" then "." else filepath.render r st.

(** A pointer to the buffered file of that name and content. *)
Definition buffered (nm : string) (b : list byte)
  : go.ptr loader.BufferedFile :=
  Some {| loader.Name := nm; loader.Data := b |}.

(** The buffered file that the collector makes of a file listed in the
    templates directory. *)
Definition templateOf (f : embed.file) : go.ptr loader.BufferedFile :=
  buffered ("templates/" ++ embed.Name f) (go.bytes_of (embed.data f)).

Definition regular (f : embed.file) : bool := negb (embed.IsDir f).

(** The names that the chart loader looks for: the two required files and
    the files directly under [templates/]. *)
Definition loaderName (nm : string) : Prop :=
  nm = "Chart.yaml" \/ nm = "values.yaml"
  \/ exists e, filepath.realElem e = true /\ nm = ("templates/" ++ e)%string.

(** The entry is a buffered file of that name. *)
Definition named (nm : string) (file : go.ptr loader.BufferedFile) : bool :=
  match file with
  | Some bf => loader.Name bf =? nm
  | None => false
  end.

(** The name of an entry of the collected sequence ([nil] has none). *)
Definition nameOf (file : go.ptr loader.BufferedFile) : string :=
  match file with
  | Some bf => loader.Name bf
  | None => ""
  end.

(** [file] is what [readFile] makes of the listed entry [f]: a buffered
    file with the bytes read at the joined path, named by [Rel]. *)
Definition collectedFrom (chart : embed.FS) (chartDirName : string)
    (f : embed.file) (file : go.ptr loader.BufferedFile) : Prop :=
  exists bf,
    file = Some bf
    /\ embed.ReadFile chart
         (filepath.Join [chartDirName; helm.templatesDirName; embed.Name f])
       = (loader.Data bf, None)
    /\ filepath.Rel chartDirName
         (filepath.Join [chartDirName; helm.templatesDirName; embed.Name f])
       = (loader.Name bf, None).

(** A loader that keeps the names of the files it is given. *)
Definition namesLoader (files : list (go.ptr loader.BufferedFile))
  : go.ptr (list string) * option go.error :=
  (Some (map nameOf files), None).

(** A tree in which [templates] is a regular file, and one in which
    [Chart.yaml] is a directory. *)
Definition demoTemplatesIsFile : embed.FS :=
  {| embed.files :=
      [ {| embed.name := "charts/"; embed.data := "" |};
        {| embed.name := "charts/demo/"; embed.data := "" |};
        {| embed.name := "charts/demo/Chart.yaml";
           embed.data := "name: demo" |};
        {| embed.name := "charts/demo/templates"; embed.data := "oops" |};
        {| embed.name := "charts/demo/values.yaml";
           embed.data := "replicas: 1" |} ] |}.

Definition demoChartIsDir : embed.FS :=
  {| embed.files :=
      [ {| embed.name := "charts/"; embed.data := "" |};
        {| embed.name := "charts/demo/"; embed.data := "" |};
        {| embed.name := "charts/demo/Chart.yaml/"; embed.data := "" |};
        {| embed.name := "charts/demo/Chart.yaml/x"; embed.data := "x" |} ] |}.

(** The scenario tree beside another directory and with another file in
    the sub-directory of [templates]. *)
Definition demoTreeMore : embed.FS :=
  {| embed.files :=
      [ {| embed.name := "charts/"; embed.data := "" |};
        {| embed.name := "other/"; embed.data := "" |};
        {| embed.name := "charts/demo/"; embed.data := "" |};
        {| embed.name := "charts/demo/Chart.yaml";
           embed.data := "name: demo" |};
        {| embed.name := "charts/demo/templates/"; embed.data := "" |};
        {| embed.name := "charts/demo/values.yaml";
           embed.data := "replicas: 1" |};
        {| embed.name := "charts/demo/templates/sub/"; embed.data := "" |};
        {| embed.name := "charts/demo/templates/svc.yaml";
           embed.data := "kind: Service" |};
        {| embed.name := "charts/demo/templates/sub/deep.yaml";
           embed.data := "kind: Job" |};
        {| embed.name := "other/notes.txt"; embed.data := "notes" |} ] |}.

(** * Checks of the library model against known results *)

(** Rows of the tables that the tests of [path/filepath] check [Clean] and
    [Join] against, results of [Rel], and the library functions on the
    scenario tree. *)

Example Clean_rows :
  map filepath.Clean
    [ ""; "abc"; "abc/def"; "a/b/c"; "."; ".."; "../.."; "../../abc"; "/abc";
      "/"; "abc/"; "abc/def/"; "./"; "../"; "/abc/"; "abc//def//ghi"; "//abc";
      "abc/./def"; "/./abc/def"; "abc/."; "abc/def/ghi/../jkl";
      "abc/def/../ghi/../jkl"; "abc/def/.."; "abc/def/../.."; "/abc/def/../..";
      "abc/def/../../.."; "/abc/def/../../.."; "/../abc"; "abc/./../def";
      "abc/../../././../def" ]
  = [ "."; "abc"; "abc/def"; "a/b/c"; "."; ".."; "../.."; "../../abc"; "/abc";
      "/"; "abc"; "abc/def"; "."; ".."; "/abc"; "abc/def/ghi"; "/abc";
      "abc/def"; "/abc/def"; "abc"; "abc/def/jkl";
      "abc/jkl"; "abc"; "."; "/";
      ".."; "/"; "/abc"; "def";
      "../../def" ].
Proof.
  reflexivity.
Qed.

Example Join_rows :
  map filepath.Join
    [ []; [""]; ["a"]; ["a"; "b"]; ["a"; ""]; [""; "b"]; ["/"; "a"];
      ["/"; ""]; ["/a"; "b"]; ["a"; "/b"]; ["a/"; "b"]; ["a/"; ""]; [""; ""] ]
  = [ ""; ""; "a"; "a/b"; "a"; "b"; "/a";
      "/"; "/a/b"; "a/b"; "a/b"; "a"; "" ].
Proof.
  reflexivity.
Qed.

Example Rel_rows :
  map (fun '(basepath, targpath) => fst (filepath.Rel basepath targpath))
    [ ("a/b", "a/b"); ("a/b/.", "a/b"); ("./a/b", "a/b"); ("ab/cd", "ab/cde");
      ("ab/cd", "ab/c"); ("a/b", "a/b/c/d"); ("a/b", "a/b/../c");
      ("a/b/../c", "a/b"); ("a/b/c", "a/c/d"); ("a/b", "c/d");
      ("a/b/c/d", "a/b"); ("../../a/b", "../../a/b/c/d"); ("/a/b", "/a/b");
      ("/ab/cd", "/ab/cde"); ("/a/b", "/a/b/c/d"); ("/a/b/c", "/a/c/d");
      ("/a/b/c/d", "/a/b/"); (".", "a/b"); (".", "..") ]
  = [ "."; "."; "."; "../cde";
      "../c"; "c/d"; "../c";
      "../b"; "../../c/d"; "../../c/d";
      "../.."; "c/d"; ".";
      "../cde"; "c/d"; "../../c/d";
      "../.."; "a/b"; ".." ].
Proof.
  reflexivity.
Qed.

Example Rel_errors :
  map (fun '(basepath, targpath) => snd (filepath.Rel basepath targpath))
    [ ("..", "."); ("..", "a"); ("a", "/a"); ("/a", "a"); ("/a", "./b/c") ]
  = [ Some (filepath.relError ".." ".");
      Some (filepath.relError ".." "a");
      Some (filepath.relError "a" "/a");
      Some (filepath.relError "/a" "a");
      Some (filepath.relError "/a" "./b/c") ].
Proof.
  reflexivity.
Qed.

Example Rel_of_chart_paths :
  filepath.Rel "charts/demo" "charts/demo/templates/svc.yaml"
  = ("templates/svc.yaml", None)
  /\ filepath.Rel "/" "/Chart.yaml" = ("Chart.yaml", None)
  /\ filepath.Rel "" "Chart.yaml" = ("Chart.yaml", None).
Proof.
  repeat split.
Qed.

Example ValidPath_rows :
  map fs.ValidPath
    [ "."; "x"; "x/y"; ""; ".."; "/"; "x/"; "/x"; "x/y/"; "/x/y"; "./";
      "./x"; "x/."; "x/./y"; "../"; "../x"; "x/.."; "x/../y"; "x//y" ]
  = [ true; true; true; false; false; false; false; false; false; false;
      false; false; false; false; false; false; false; false; false ].
Proof.
  reflexivity.
Qed.

Example demoTree_wellFormed :
  embed.wellFormed demoTree = true
  /\ embed.wellFormed demoNoValues = true
  /\ embed.wellFormed demoNoTemplates = true.
Proof.
  repeat split.
Qed.

Example demoTree_ReadDir :
  embed.ReadDir demoTree "charts/demo/templates"
  = ([ {| embed.name := "charts/demo/templates/sub/"; embed.data := "" |};
       {| embed.name := "charts/demo/templates/svc.yaml";
          embed.data := "kind: Service" |} ], None)
  /\ map embed.Name (embed.readDir demoTree "charts/demo")
     = ["Chart.yaml"; "templates"; "values.yaml"]
  /\ embed.ReadDir demoTree "charts/demo/Chart.yaml"
     = ([], Some (go.PathError "read" "charts/demo/Chart.yaml"
                    (go.errorString "not a directory")))
  /\ embed.ReadFile demoTree "charts/demo/templates"
     = ([], Some (go.PathError "read" "charts/demo/templates"
                    (go.errorString "is a directory")))
  /\ embed.ReadFile demoTree "charts/demo/none.yaml"
     = ([], Some (go.PathError "open" "charts/demo/none.yaml"
                    go.ErrNotExist)).
Proof.
  repeat split.
Qed.

(** * Strings *)

Section StringFacts.

Lemma append_assoc (s t u : string) :
  ((s ++ t) ++ u)%string = (s ++ (t ++ u))%string.
Proof. induction s as [|c s IH]; simpl; [reflexivity | now rewrite IH]. Qed.

Lemma append_inv_head (s t u : string) :
  (s ++ t)%string = (s ++ u)%string -> t = u.
Proof.
  induction s as [|c s IH]; simpl; intros H; [exact H|].
  injection H as H. now apply IH.
Qed.

Lemma concat_cons2 (sep x y : string) (ys : list string) :
  String.concat sep (x :: y :: ys)
  = (x ++ sep ++ String.concat sep (y :: ys))%string.
Proof. reflexivity. Qed.

Lemma concat_snoc (sep e : string) (l : list string) :
  l <> [] ->
  String.concat sep (l ++ [e]) = (String.concat sep l ++ sep ++ e)%string.
Proof.
  induction l as [|x l IH]; intros Hne; [congruence|].
  destruct l as [|y l].
  - reflexivity.
  - change ((x :: y :: l) ++ [e]) with (x :: (y :: l) ++ [e]).
    change ((y :: l) ++ [e]) with (y :: (l ++ [e])) at 1.
    rewrite concat_cons2.
    change (y :: l ++ [e]) with ((y :: l) ++ [e]).
    rewrite IH by discriminate.
    rewrite concat_cons2. now rewrite !append_assoc.
Qed.

End StringFacts.

(** * Path elements *)

Section ElemFacts.

Import filepath.

Lemma fields_cons (c : ascii) (s : string) :
  fields (String c s)
  = if IsPathSeparator c then "" :: fields s
    else match fields s with
         | e :: es => String c e :: es
         | [] => [String c ""]
         end.
Proof.
  unfold fields. simpl. destruct (fs.cutAll s) as [e es].
  unfold IsPathSeparator, Separator. now destruct (Ascii.eqb c "/").
Qed.

Lemma fields_not_nil (s : string) : fields s <> [].
Proof. unfold fields. destruct (fs.cutAll s). discriminate. Qed.

Lemma elems_elem_sep (e s : string) :
  sepFree e = true -> elems (e ++ String "/" s) = e :: elems s.
Proof.
  induction e as [|c e IH]; simpl; intros H; [reflexivity|].
  apply andb_prop in H as [Hc He].
  destruct (IsPathSeparator c); [discriminate|].
  now rewrite IH.
Qed.

Lemma elems_single (e : string) :
  sepFree e = true -> e <> "" -> elems e = [e].
Proof.
  induction e as [|c e IH]; simpl; intros H Hne; [congruence|].
  apply andb_prop in H as [Hc He].
  destruct (IsPathSeparator c); [discriminate|].
  destruct e as [|c' e]; [reflexivity|].
  now rewrite IH.
Qed.

Lemma elems_concat (es : list string) :
  Forall (fun e => sepFree e = true /\ e <> "") es ->
  elems (String.concat "/" es) = es.
Proof.
  induction 1 as [|e es [He Hne] _ IH]; [reflexivity|].
  destruct es as [|y es].
  - now apply elems_single.
  - rewrite concat_cons2.
    change ("/" ++ String.concat "/" (y :: es))%string
      with (String "/" (String.concat "/" (y :: es))).
    rewrite elems_elem_sep by assumption. now rewrite IH.
Qed.

Lemma elems_sepFree (p : string) :
  Forall (fun e => sepFree e = true) (elems p).
Proof.
  induction p as [|c p IH]; simpl; [constructor|].
  destruct (IsPathSeparator c) eqn:Hc.
  - now constructor.
  - destruct (elems p) as [|e es].
    + constructor; [|constructor]. simpl. now rewrite Hc.
    + inversion IH; subst. constructor; [|assumption].
      simpl. now rewrite Hc.
Qed.

Lemma elems_app_sep (d f : string) :
  elems (d ++ String "/" f) = fields d ++ elems f.
Proof.
  induction d as [|c d IH]; [reflexivity|].
  simpl append. simpl elems. rewrite fields_cons, IH.
  destruct (IsPathSeparator c); [reflexivity|].
  pose proof (fields_not_nil d).
  destruct (fields d); [congruence | reflexivity].
Qed.

Lemma fields_elems (d : string) :
  exists t, (t = [] \/ t = [""]) /\ fields d = elems d ++ t.
Proof.
  induction d as [|c d (t & Ht & IH)].
  - exists [""]. auto.
  - rewrite fields_cons. simpl elems.
    destruct (IsPathSeparator c).
    + exists t. split; [assumption|]. now rewrite IH.
    + rewrite IH. destruct (elems d) as [|e es].
      * exists []. split; [auto|].
        pose proof (fields_not_nil d) as Hne. rewrite IH in Hne.
        destruct Ht; subst; simpl in *; [congruence | reflexivity].
      * exists t. auto.
Qed.

Lemma fold_fields (r : bool) (d : string) (acc : list string) :
  fold_left (cleanElem r) (fields d) acc
  = fold_left (cleanElem r) (elems d) acc.
Proof.
  destruct (fields_elems d) as (t & [-> | ->] & ->).
  - now rewrite app_nil_r.
  - now rewrite fold_left_app.
Qed.

End ElemFacts.

(** * Cleaning, joining and relativizing *)

Section CleanFacts.

Import filepath.

Lemma realElem_inv (e : string) :
  realElem e = true ->
  sepFree e = true /\ e <> "" /\ e <> "." /\ e <> "..".
Proof.
  unfold realElem. intros H.
  repeat (apply andb_prop in H as [H ?]).
  repeat split; try assumption;
    apply String.eqb_neq; now apply negb_true_iff.
Qed.

Lemma realElem_intro (e : string) :
  sepFree e = true -> (e =? "") = false -> (e =? ".") = false ->
  (e =? "..") = false -> realElem e = true.
Proof. unfold realElem. now intros -> -> -> ->. Qed.

Lemma cleanElem_real (r : bool) (st : list string) (e : string) :
  realElem e = true -> cleanElem r st e = e :: st.
Proof.
  intros (_ & H1 & H2 & H3)%realElem_inv. unfold cleanElem.
  apply String.eqb_neq in H1, H2, H3. now rewrite H1, H2, H3.
Qed.

Lemma cleanElem_wf (r : bool) (st : list string) (e : string) :
  sepFree e = true -> wfStack r st -> wfStack r (cleanElem r st e).
Proof.
  intros He Hst. unfold cleanElem.
  destruct (e =? "") eqn:E1; [assumption|].
  destruct (e =? ".") eqn:E2; [assumption|].
  destruct (e =? "..") eqn:E3.
  - apply String.eqb_eq in E3. subst e.
    destruct (canBacktrack st) eqn:Hb.
    + destruct st as [|top st']; [discriminate|]. simpl in *.
      inversion Hst; subst; [discriminate | assumption].
    + destruct r; simpl; [assumption|]. now constructor.
  - apply wf_real; [|assumption]. now apply realElem_intro.
Qed.

Lemma fold_cleanElem_wf (r : bool) (l st : list string) :
  Forall (fun e => sepFree e = true) l -> wfStack r st ->
  wfStack r (fold_left (cleanElem r) l st).
Proof.
  intros Hl. revert st.
  induction Hl as [|e l He _ IH]; intros st Hst; simpl; [assumption|].
  apply IH. now apply cleanElem_wf.
Qed.

Lemma cleanStack_wf (r : bool) (p : string) : wfStack r (cleanStack r p).
Proof.
  apply fold_cleanElem_wf; [apply elems_sepFree | constructor].
Qed.

Lemma fold_cleanElem_real (r : bool) (fs st : list string) :
  Forall (fun e => realElem e = true) fs ->
  fold_left (cleanElem r) fs st = rev fs ++ st.
Proof.
  intros Hfs. revert st.
  induction Hfs as [|e fs He _ IH]; intros st; simpl; [reflexivity|].
  rewrite cleanElem_real by assumption.
  now rewrite IH, <- app_assoc.
Qed.

Lemma wfStack_push (r : bool) (fs st : list string) :
  Forall (fun e => realElem e = true) fs -> wfStack r st ->
  wfStack r (rev fs ++ st).
Proof.
  intros Hfs Hst. rewrite <- (fold_cleanElem_real r) by assumption.
  apply fold_cleanElem_wf; [|assumption].
  eapply Forall_impl; [|exact Hfs].
  intros e He. now apply realElem_inv in He.
Qed.

Lemma wfStack_refold (r : bool) (st : list string) :
  wfStack r st -> fold_left (cleanElem r) (rev st) [] = st.
Proof.
  induction 1 as [|st Hr Hb _ IH|e st He _ IH]; [reflexivity| |];
    simpl rev; rewrite fold_left_app, IH; simpl.
  - unfold cleanElem. simpl. now rewrite Hb, Hr.
  - now apply cleanElem_real.
Qed.

Lemma wfStack_elems (r : bool) (st : list string) :
  wfStack r st ->
  Forall (fun e => sepFree e = true /\ e <> "") st.
Proof.
  induction 1 as [|st _ _ _ IH|e st He _ IH]; constructor; try assumption.
  - split; [reflexivity | discriminate].
  - apply realElem_inv in He. tauto.
Qed.

Lemma wfStack_no_dot (r : bool) (st : list string) :
  wfStack r st -> ~ In "." st.
Proof.
  induction 1 as [|st _ _ _ IH|e st He _ IH]; simpl; [tauto| |].
  - intros [H|H]; [discriminate | tauto].
  - apply realElem_inv in He. intros [H|H]; [|tauto].
    subst e. tauto.
Qed.

Lemma rooted_concat (es : list string) :
  Forall (fun e => sepFree e = true /\ e <> "") es ->
  rooted (String.concat "/" es) = false.
Proof.
  intros Hes. destruct Hes as [|e es [He Hne] _]; [reflexivity|].
  destruct e as [|c e]; [congruence|].
  simpl in He. apply andb_prop in He as [Hc _].
  apply negb_true_iff in Hc.
  destruct es; simpl; assumption.
Qed.

Lemma rooted_render (r : bool) (st : list string) :
  wfStack r st -> rooted (render r st) = r.
Proof.
  intros Hst. unfold render. destruct r; [reflexivity|].
  simpl. apply rooted_concat.
  apply Forall_rev. eapply wfStack_elems; eassumption.
Qed.

Lemma elems_render (r : bool) (st : list string) :
  wfStack r st ->
  elems (render r st) = (if r then [""] else []) ++ rev st.
Proof.
  intros Hst.
  assert (Hel : elems (String.concat "/" (rev st)) = rev st).
  { apply elems_concat, Forall_rev. eapply wfStack_elems; eassumption. }
  unfold render. destruct r; simpl; now rewrite Hel.
Qed.

Lemma Clean_eq (p : string) :
  Clean p = renderDot (rooted p) (cleanStack (rooted p) p).
Proof. unfold Clean. destruct p; reflexivity. Qed.

Lemma Clean_render (r : bool) (st : list string) :
  wfStack r st -> Clean (render r st) = renderDot r st.
Proof.
  intros Hst. rewrite Clean_eq, rooted_render by assumption.
  unfold cleanStack. rewrite elems_render, fold_left_app by assumption.
  replace (fold_left (cleanElem r) (if r then [""] else []) [])
    with (@nil string) by now destruct r.
  now rewrite wfStack_refold.
Qed.

(** [Clean] is idempotent. *)
Lemma Clean_idempotent (p : string) : Clean (Clean p) = Clean p.
Proof.
  rewrite (Clean_eq p).
  pose proof (cleanStack_wf (rooted p) p) as Hst.
  unfold renderDot at 1.
  destruct (render (rooted p) (cleanStack (rooted p) p) =? "") eqn:E.
  - unfold renderDot. now rewrite E.
  - now apply Clean_render.
Qed.

Lemma render_not_dot (r : bool) (st : list string) :
  wfStack r st -> render r st <> ".".
Proof.
  intros Hst Heq. pose proof (elems_render r st Hst) as Hel.
  rewrite Heq in Hel. simpl in Hel.
  destruct r; simpl in Hel; [inversion Hel|].
  apply (wfStack_no_dot _ _ Hst). apply in_rev. rewrite <- Hel. now left.
Qed.

Lemma render_push_nonempty (r : bool) (fs st : list string) :
  fs <> [] -> Forall (fun e => realElem e = true) fs -> wfStack r st ->
  render r (rev fs ++ st) <> "".
Proof.
  intros Hne Hfs Hst Heq.
  pose proof (elems_render r _ (wfStack_push r fs st Hfs Hst)) as Hel.
  rewrite Heq, rev_app_distr, rev_involutive in Hel. simpl in Hel.
  destruct r, (rev st), fs; simpl in Hel; congruence.
Qed.

Lemma renderDot_push (r : bool) (fs st : list string) :
  fs <> [] -> Forall (fun e => realElem e = true) fs -> wfStack r st ->
  renderDot r (rev fs ++ st) = render r (rev fs ++ st).
Proof.
  intros Hne Hfs Hst. unfold renderDot.
  pose proof (render_push_nonempty r fs st Hne Hfs Hst) as H.
  apply String.eqb_neq in H. now rewrite H.
Qed.

Lemma Join_head (e : string) (l : list string) :
  e <> "" -> Join (e :: l) = Clean (String.concat "/" (e :: l)).
Proof.
  intros H. apply String.eqb_neq in H.
  change (Join (e :: l))
    with (if e =? "" then Join l else Clean (String.concat "/" (e :: l))).
  now rewrite H.
Qed.

(** Joining real elements onto a directory appends them to the cleaned
    directory. *)
Lemma Join_real (d : string) (fs : list string) :
  fs <> [] -> Forall (fun e => realElem e = true) fs ->
  Join (d :: fs) = render (rooted d) (rev fs ++ cleanStack (rooted d) d).
Proof.
  intros Hne Hfs. destruct d as [|c d].
  - simpl rooted. unfold cleanStack. simpl fold_left.
    rewrite app_nil_r.
    assert (Hwf : wfStack false (rev fs ++ [])).
    { apply wfStack_push; [assumption | constructor]. }
    rewrite app_nil_r in Hwf.
    destruct fs as [|f fs]; [congruence|].
    change (Join ("" :: f :: fs)) with (Join (f :: fs)).
    inversion Hfs as [|? ? Hf _]; subst.
    apply realElem_inv in Hf as (_ & Hf & _).
    rewrite Join_head by assumption.
    replace (String.concat "/" (f :: fs)) with (render false (rev (f :: fs)))
      by (unfold render; now rewrite rev_involutive).
    rewrite Clean_render by assumption.
    pose proof (renderDot_push false (f :: fs) [] Hne Hfs (wf_nil _)) as H.
    now rewrite app_nil_r in H.
  - set (p := String c d).
    assert (Hj : Join (p :: fs)
                 = Clean (p ++ String "/" (String.concat "/" fs))).
    { rewrite Join_head by discriminate.
      destruct fs as [|f fs]; [congruence | reflexivity]. }
    rewrite Hj, Clean_eq.
    assert (Hr : rooted (p ++ String "/" (String.concat "/" fs)) = rooted p)
      by reflexivity.
    rewrite Hr. unfold cleanStack at 1.
    rewrite elems_app_sep, fold_left_app, fold_fields.
    fold (cleanStack (rooted p) p).
    rewrite elems_concat.
    + rewrite fold_cleanElem_real by assumption.
      apply renderDot_push; [assumption.. | apply cleanStack_wf].
    + eapply Forall_impl; [|exact Hfs].
      intros e He. apply realElem_inv in He. tauto.
Qed.

Lemma relLoop_prefix (p b t : list string) :
  relLoop (p ++ b) (p ++ t) = relLoop b t.
Proof.
  induction p as [|x p IH]; [reflexivity|].
  simpl. now rewrite String.eqb_refl.
Qed.

Lemma base_undot (r : bool) (st : list string) :
  wfStack r st ->
  (if renderDot r st =? "." then "" else renderDot r st) = render r st.
Proof.
  intros Hst. unfold renderDot.
  destruct (render r st =? "") eqn:E.
  - apply String.eqb_eq in E. now rewrite E.
  - pose proof (render_not_dot r st Hst) as H.
    apply String.eqb_neq in H. now rewrite H.
Qed.

(** The path joined from a directory and real elements is relative to the
    directory by exactly those elements. *)
Lemma Rel_Join (d : string) (fs : list string) :
  fs <> [] -> Forall (fun e => realElem e = true) fs ->
  Rel d (Join (d :: fs)) = (String.concat "/" fs, None).
Proof.
  intros Hne Hfs. rewrite Join_real by assumption.
  set (r := rooted d). set (st := cleanStack r d).
  assert (Hst : wfStack r st) by apply cleanStack_wf.
  assert (Hst' : wfStack r (rev fs ++ st)) by now apply wfStack_push.
  unfold Rel.
  rewrite Clean_render, renderDot_push by assumption.
  rewrite Clean_eq. fold r. fold st.
  assert (Hdiff : (render r (rev fs ++ st) =? renderDot r st) = false).
  { apply String.eqb_neq. intros Heq.
    pose proof (elems_render r _ Hst') as H1.
    rewrite Heq in H1. unfold renderDot in H1.
    destruct (render r st =? "") eqn:E.
    - apply String.eqb_eq in E.
      pose proof (elems_render r _ Hst) as H2. rewrite E in H2.
      rewrite rev_app_distr, rev_involutive in H1. simpl in H1, H2.
      destruct r; simpl in H2; [discriminate|].
      destruct (rev st); [|discriminate]. simpl in H1.
      rewrite <- H1 in Hfs. inversion Hfs as [|? ? Hf _]; subst.
      now apply realElem_inv in Hf.
    - rewrite (elems_render r _ Hst) in H1.
      rewrite rev_app_distr, rev_involutive in H1.
      apply app_inv_head in H1.
      rewrite <- (app_nil_r (rev st)) in H1 at 1.
      apply app_inv_head in H1. congruence. }
  rewrite Hdiff, base_undot by assumption.
  rewrite !rooted_render by assumption.
  rewrite Bool.eqb_reflx. simpl negb. cbv iota.
  rewrite !elems_render by assumption.
  rewrite rev_app_distr, rev_involutive.
  rewrite <- (app_nil_r (rev st)) at 1.
  rewrite !relLoop_prefix. simpl.
  reflexivity.
Qed.

End CleanFacts.

(** * Names of embedded files *)

Section NameFacts.

Import filepath embed.

Lemma cutSlash_true (nm t : string) :
  cutSlash nm = (t, true) -> nm = (t ++ "/")%string.
Proof.
  revert t. induction nm as [|c nm IH]; intros t H; [discriminate|].
  destruct nm as [|c' nm].
  - simpl in H. destruct (Ascii.eqb_spec c "/"); [|discriminate].
    injection H as <-. now subst c.
  - change (cutSlash (String c (String c' nm)))
      with (let '(n, isDir) := cutSlash (String c' nm) in (String c n, isDir))
      in H.
    destruct (cutSlash (String c' nm)) as [n b].
    injection H as <- ->. simpl. f_equal. now apply IH.
Qed.

Lemma cutSlash_false (nm t : string) :
  cutSlash nm = (t, false) -> nm = t.
Proof.
  revert t. induction nm as [|c nm IH]; intros t H.
  - now injection H.
  - destruct nm as [|c' nm].
    + simpl in H. destruct (Ascii.eqb c "/"); [discriminate|].
      now injection H.
    + change (cutSlash (String c (String c' nm)))
        with (let '(n, isDir) := cutSlash (String c' nm) in (String c n, isDir))
        in H.
      destruct (cutSlash (String c' nm)) as [n b].
      injection H as <- ->. f_equal. now apply IH.
Qed.

Lemma cutLast_Some (s dir elem : string) :
  cutLast s = (Some dir, elem) ->
  s = (dir ++ String "/" elem)%string /\ sepFree elem = true.
Proof.
  revert dir. induction s as [|c s IH]; intros dir H; [discriminate|].
  simpl in H. destruct (cutLast s) as [[d|] e] eqn:E.
  - injection H as <- <-. destruct (IH d eq_refl) as [-> He].
    now split.
  - destruct (Ascii.eqb_spec c "/"); [|discriminate].
    injection H as <- <-. subst c.
    clear IH. revert e E. induction s as [|c s IH]; intros e E.
    + injection E as <-. now split.
    + simpl in E. destruct (cutLast s) as [[d|] e'] eqn:E'; [discriminate|].
      destruct (Ascii.eqb c "/") eqn:Hc; [discriminate|].
      injection E as <-. destruct (IH e' eq_refl) as [Hs He].
      injection Hs as ->. split; [reflexivity|].
      simpl. unfold IsPathSeparator, Separator. now rewrite Hc.
Qed.

Lemma cutLast_None (s elem : string) :
  cutLast s = (None, elem) -> s = elem /\ sepFree elem = true.
Proof.
  revert elem. induction s as [|c s IH]; intros elem H.
  - injection H as <-. now split.
  - simpl in H. destruct (cutLast s) as [[d|] e] eqn:E; [discriminate|].
    destruct (Ascii.eqb c "/") eqn:Hc; [discriminate|].
    injection H as <-. destruct (IH e eq_refl) as [-> He].
    split; [reflexivity|].
    simpl. unfold IsPathSeparator, Separator. now rewrite Hc.
Qed.

Lemma cutLast_sepFree (e : string) :
  sepFree e = true -> cutLast e = (None, e).
Proof.
  induction e as [|c e IH]; intros H; [reflexivity|].
  simpl in H. apply andb_prop in H as [Hc He].
  simpl. rewrite IH by assumption.
  unfold IsPathSeparator, Separator in Hc.
  apply negb_true_iff in Hc. now rewrite Hc.
Qed.

Lemma cutLast_app (p e : string) :
  sepFree e = true -> cutLast (p ++ String "/" e) = (Some p, e).
Proof.
  intros He. induction p as [|c p IH]; simpl.
  - now rewrite cutLast_sepFree.
  - now rewrite IH.
Qed.

(** A file found in directory [p] has the path [p/elem], where [elem] is
    its name. *)
Lemma path_dirOf (fl : file) :
  dirOf fl <> "." ->
  path fl = (dirOf fl ++ String "/" (Name fl))%string
  /\ sepFree (Name fl) = true.
Proof.
  unfold dirOf, Name, path, trimSlash, split.
  destruct (cutSlash (name fl)) as [nm isDir]. simpl fst.
  destruct (cutLast nm) as [[dir|] elem] eqn:E; intros H.
  - now apply cutLast_Some.
  - congruence.
Qed.

Lemma dirOf_path (fl : file) (p x : string) :
  path fl = (p ++ String "/" x)%string -> sepFree x = true ->
  dirOf fl = p /\ Name fl = x.
Proof.
  unfold dirOf, Name, path, trimSlash, split.
  destruct (cutSlash (name fl)) as [nm isDir]. simpl fst.
  intros -> Hx. now rewrite cutLast_app.
Qed.

Lemma name_regular (fl : file) : IsDir fl = false -> name fl = path fl.
Proof.
  unfold IsDir, path, trimSlash, split.
  destruct (cutSlash (name fl)) as [nm isDir] eqn:E. simpl fst.
  destruct (cutLast nm) as [[dir|] elem]; intros ->;
    now apply cutSlash_false.
Qed.

Lemma name_directory (fl : file) :
  IsDir fl = true -> name fl = (path fl ++ "/")%string.
Proof.
  unfold IsDir, path, trimSlash, split.
  destruct (cutSlash (name fl)) as [nm isDir] eqn:E. simpl fst.
  destruct (cutLast nm) as [[dir|] elem]; intros ->;
    now apply cutSlash_true.
Qed.

Lemma IsDir_cutSlash (fl : file) : IsDir fl = snd (cutSlash (name fl)).
Proof.
  unfold IsDir, split. destruct (cutSlash (name fl)) as [nm isDir].
  now destruct (cutLast nm) as [[dir|] elem].
Qed.

Lemma cutSlash_cons (c : ascii) (s : string) :
  s <> "" ->
  cutSlash (String c s)
  = let '(n, isDir) := cutSlash s in (String c n, isDir).
Proof. destruct s; [congruence | reflexivity]. Qed.

Lemma cutSlash_snoc (t : string) : cutSlash (t ++ "/") = (t, true).
Proof.
  induction t as [|c t IH]; [reflexivity|].
  simpl append. rewrite cutSlash_cons, IH; [reflexivity|].
  destruct t; discriminate.
Qed.

End NameFacts.

Section ValidPathFacts.

Import filepath.

Lemma ValidPath_eq (nm : string) :
  fs.ValidPath nm
  = if nm =? "." then true else forallb fs.validElem (fields nm).
Proof.
  unfold fs.ValidPath, fields. now destruct (fs.cutAll nm).
Qed.

Lemma fields_app_sep (p s : string) :
  fields (p ++ String "/" s) = fields p ++ fields s.
Proof.
  induction p as [|c p IH]; [simpl append; now rewrite fields_cons|].
  simpl append. rewrite !fields_cons, IH.
  destruct (IsPathSeparator c); [reflexivity|].
  pose proof (fields_not_nil p).
  destruct (fields p); [congruence | reflexivity].
Qed.

Lemma fields_sepFree (x : string) : sepFree x = true -> fields x = [x].
Proof.
  induction x as [|c x IH]; intros H; [reflexivity|].
  simpl in H. apply andb_prop in H as [Hc Hx].
  rewrite fields_cons, IH by assumption.
  apply negb_true_iff in Hc. now rewrite Hc.
Qed.

Lemma app_sep_not_dot (p x : string) :
  (p ++ String "/" x)%string <> ".".
Proof.
  destruct p as [|c p]; simpl; [discriminate|].
  intros H. injection H as _ H. destruct p; discriminate.
Qed.

Lemma validElem_realElem (x : string) :
  sepFree x = true -> fs.validElem x = true -> realElem x = true.
Proof.
  unfold fs.validElem, realElem. intros -> H.
  destruct (x =? ""), (x =? "."), (x =? ".."); simpl in *; congruence.
Qed.

Lemma ValidPath_last (p x : string) :
  sepFree x = true -> fs.ValidPath (p ++ String "/" x) = true ->
  realElem x = true.
Proof.
  intros Hx H. rewrite ValidPath_eq in H.
  pose proof (app_sep_not_dot p x) as Hd. apply String.eqb_neq in Hd.
  rewrite Hd, fields_app_sep, forallb_app in H.
  rewrite (fields_sepFree x Hx) in H.
  apply andb_prop in H as [_ H]. simpl in H. rewrite andb_true_r in H.
  now apply validElem_realElem.
Qed.

End ValidPathFacts.

Section TreeFacts.

Import filepath embed.

Lemma distinct_inj {A : Type} (k : A -> string) (l : list A) :
  distinct (map k l) = true ->
  forall x y, In x l -> In y l -> k x = k y -> x = y.
Proof.
  induction l as [|z l IH]; simpl; intros H x y Hx Hy Hk; [tauto|].
  apply andb_prop in H as [Hz Hl]. apply negb_true_iff in Hz.
  assert (Hfresh : forall u, In u l -> k z <> k u).
  { intros u Hu Heq.
    assert (existsb (String.eqb (k z)) (map k l) = true); [|congruence].
    apply existsb_exists. exists (k u). split.
    - now apply in_map.
    - now apply String.eqb_eq. }
  destruct Hx as [<-|Hx], Hy as [<-|Hy]; auto.
  - exfalso. eapply Hfresh; eassumption.
  - exfalso. eapply Hfresh; [eassumption | now symmetry].
Qed.

Variable chart : FS.
Hypothesis Hwf : wellFormed chart = true.

Lemma wf_valid (fl : file) :
  In fl (files chart) ->
  fs.ValidPath (path fl) = true /\ path fl <> ".".
Proof.
  intros Hin. unfold wellFormed in Hwf.
  apply andb_prop in Hwf as [H _]. apply andb_prop in H as [H _].
  rewrite forallb_forall in H. specialize (H fl Hin).
  apply andb_prop in H as [H1 H2]. split; [assumption|].
  apply String.eqb_neq. now apply negb_true_iff.
Qed.

Lemma wf_inj (fl g : file) :
  In fl (files chart) -> In g (files chart) -> path fl = path g -> fl = g.
Proof.
  unfold wellFormed in Hwf.
  apply andb_prop in Hwf as [H _]. apply andb_prop in H as [_ H].
  now apply distinct_inj.
Qed.

Lemma wf_parent (fl : file) :
  In fl (files chart) -> dirOf fl <> "." ->
  exists g, In g (files chart) /\ name g = (dirOf fl ++ "/")%string.
Proof.
  intros Hin Hd. unfold wellFormed in Hwf.
  apply andb_prop in Hwf as [_ H].
  rewrite forallb_forall in H. specialize (H fl Hin).
  apply orb_prop in H as [H|H].
  - now apply String.eqb_eq in H.
  - apply existsb_exists in H as (g & Hg & H).
    apply String.eqb_eq in H. eauto.
Qed.

Lemma lookup_In (fl : file) :
  In fl (files chart) -> lookup chart (path fl) = Some fl.
Proof.
  intros Hin. destruct (wf_valid fl Hin) as [Hv Hd].
  unfold lookup. rewrite Hv. simpl.
  apply String.eqb_neq in Hd. rewrite Hd.
  destruct (find _ (files chart)) as [g|] eqn:E.
  - apply find_some in E as [Hg E]. apply String.eqb_eq in E.
    f_equal. now apply wf_inj.
  - eapply find_none in E; [|exact Hin].
    unfold path in E. now rewrite String.eqb_refl in E.
Qed.

Lemma ReadFile_In (fl : file) :
  In fl (files chart) -> IsDir fl = false ->
  ReadFile chart (name fl) = (go.bytes_of (data fl), None).
Proof.
  intros Hin Hd. rewrite (name_regular fl Hd).
  unfold ReadFile, Open. now rewrite (lookup_In fl Hin), Hd.
Qed.

Lemma ReadDir_In (fl : file) :
  In fl (files chart) -> IsDir fl = true ->
  ReadDir chart (path fl) = (readDir chart (path fl), None).
Proof.
  intros Hin Hd. unfold ReadDir, Open.
  now rewrite (lookup_In fl Hin), Hd.
Qed.

End TreeFacts.

Section LookupFacts.

Import filepath embed.

Lemma lookup_Some (chart : FS) (nm : string) (fl : file) :
  lookup chart nm = Some fl -> nm <> "." ->
  In fl (files chart) /\ path fl = nm.
Proof.
  unfold lookup. intros H Hd.
  destruct (fs.ValidPath nm); [|discriminate]. simpl in H.
  apply String.eqb_neq in Hd. rewrite Hd in H.
  apply find_some in H as [Hin H]. now apply String.eqb_eq in H.
Qed.

Lemma ReadFile_ok (chart : FS) (nm : string) (b : list byte) :
  ReadFile chart nm = (b, None) ->
  exists fl, lookup chart nm = Some fl /\ IsDir fl = false
             /\ b = go.bytes_of (data fl).
Proof.
  unfold ReadFile, Open. destruct (lookup chart nm) as [fl|]; [|discriminate].
  destruct (IsDir fl) eqn:E; [discriminate|].
  intros H. injection H as <-. eauto.
Qed.

Lemma ReadDir_ok (chart : FS) (nm : string) (es : list file) :
  ReadDir chart nm = (es, None) ->
  es = readDir chart nm
  /\ exists fl, lookup chart nm = Some fl /\ IsDir fl = true.
Proof.
  unfold ReadDir, Open. destruct (lookup chart nm) as [fl|]; [|discriminate].
  destruct (IsDir fl) eqn:E; [|discriminate].
  intros H. injection H as <-. eauto.
Qed.

Lemma ReadFile_missing (chart : FS) (nm : string) :
  lookup chart nm = None ->
  ReadFile chart nm = ([], Some (go.PathError "open" nm go.ErrNotExist)).
Proof. unfold ReadFile, Open. now intros ->. Qed.

Lemma ReadDir_missing (chart : FS) (nm : string) :
  lookup chart nm = None ->
  ReadDir chart nm = ([], Some (go.PathError "open" nm go.ErrNotExist)).
Proof. unfold ReadDir, Open. now intros ->. Qed.

Lemma readDir_In (chart : FS) (dir : string) (fl : file) :
  In fl (readDir chart dir) <-> In fl (files chart) /\ dirOf fl = dir.
Proof.
  unfold readDir. rewrite filter_In. now rewrite String.eqb_eq.
Qed.

End LookupFacts.

Section ListFacts.

Lemma distinct_NoDup (l : list string) :
  embed.distinct l = true -> NoDup l.
Proof.
  induction l as [|x l IH]; simpl; intros H; constructor.
  - apply andb_prop in H as [H _]. apply negb_true_iff in H.
    intros Hin.
    assert (existsb (String.eqb x) l = true); [|congruence].
    apply existsb_exists. exists x. split; [assumption|].
    apply String.eqb_refl.
  - apply andb_prop in H as [_ H]. now apply IH.
Qed.

Lemma NoDup_map_filter {A B : Type} (k : A -> B) (q : A -> bool)
    (l : list A) :
  NoDup (map k l) -> NoDup (map k (filter q l)).
Proof.
  induction l as [|x l IH]; simpl; intros H; [constructor|].
  inversion H as [|? ? Hx Hl]; subst.
  destruct (q x); simpl; [constructor|]; auto.
  intros Hin. apply Hx.
  apply in_map_iff in Hin as (y & Hy & Hin).
  apply filter_In in Hin as [Hin _].
  apply in_map_iff. eauto.
Qed.

Lemma filter_unique {A : Type} (k : A -> string) (l : list A) (f : A) :
  NoDup (map k l) -> In f l ->
  filter (fun g => k g =? k f) l = [f].
Proof.
  induction l as [|x l IH]; simpl; intros H Hin; [tauto|].
  inversion H as [|? ? Hx Hl]; subst.
  destruct Hin as [->|Hin].
  - rewrite String.eqb_refl. f_equal.
    clear IH H Hl. induction l as [|y l IH]; [reflexivity|].
    simpl. destruct (String.eqb_spec (k y) (k f)) as [E|E].
    + exfalso. apply Hx. left. now symmetry.
    + apply IH. intros Hin. apply Hx. now right.
  - destruct (String.eqb_spec (k x) (k f)) as [E|E].
    + exfalso. apply Hx. rewrite E. now apply in_map.
    + now apply IH.
Qed.

Lemma eqb_append_head (s a b : string) :
  ((s ++ a)%string =? (s ++ b)%string) = (a =? b).
Proof.
  induction s as [|c s IH]; simpl; [reflexivity|].
  now rewrite Ascii.eqb_refl.
Qed.

Lemma prefix_append_head (s a b : string) :
  String.prefix (s ++ a) (s ++ b) = String.prefix a b.
Proof.
  induction s as [|c s IH]; simpl; [reflexivity|].
  destruct (ascii_dec c c); [assumption | congruence].
Qed.

Lemma prefix_snoc (a b : string) (ch : ascii) :
  String.prefix (a ++ String ch "") b = true ->
  exists t, b = (a ++ String ch t)%string.
Proof.
  revert b. induction a as [|c a IH]; intros [|c' b]; simpl;
    try discriminate.
  - destruct (ascii_dec ch c') as [<-|]; [|discriminate]. eauto.
  - destruct (ascii_dec c c') as [<-|]; [|discriminate].
    intros H. destruct (IH b H) as [t ->]. eauto.
Qed.

Lemma sepFree_app_sep (a t : string) :
  filepath.sepFree (a ++ String "/" t) = false.
Proof.
  induction a as [|c a IH]; simpl; [reflexivity|].
  rewrite IH. apply andb_false_r.
Qed.

Lemma prefix_sep (a b : string) :
  String.prefix (a ++ "/") b = true -> filepath.sepFree b = false.
Proof.
  intros H. apply prefix_snoc in H as [t ->]. apply sepFree_app_sep.
Qed.

End ListFacts.

(** * The collector *)

Section CollectorFacts.

Import filepath embed helm.

Lemma readFile_Join (chart : FS) (d : string) (fs : list string) :
  fs <> [] -> Forall (fun e => realElem e = true) fs ->
  readFile chart (Join (d :: fs)) d
  = match ReadFile chart (Join (d :: fs)) with
    | (_, Some err) => (go.nil, Some err)
    | (b, None) => (buffered (String.concat "/" fs) b, None)
    end.
Proof.
  intros Hne Hfs. unfold readFile.
  destruct (ReadFile chart (Join (d :: fs))) as [b [err|]]; [reflexivity|].
  now rewrite Rel_Join.
Qed.

Lemma render_push (r : bool) (x : string) (st : list string) :
  st <> [] -> render r (x :: st) = (render r st ++ String "/" x)%string.
Proof.
  intros Hne. unfold render. simpl rev.
  rewrite concat_snoc, append_assoc; [reflexivity|].
  intros H. apply (f_equal (@rev string)) in H.
  rewrite rev_involutive in H. now apply Hne.
Qed.

Lemma Join_templates (d x : string) :
  realElem x = true ->
  Join [d; templatesDirName; x]
  = (Join [d; templatesDirName] ++ String "/" x)%string.
Proof.
  intros Hx.
  rewrite (Join_real d [templatesDirName; x]);
    [|discriminate | repeat constructor; assumption].
  rewrite (Join_real d [templatesDirName]);
    [|discriminate | repeat constructor].
  change (rev [templatesDirName; x] ++ cleanStack (rooted d) d)
    with (x :: templatesDirName :: cleanStack (rooted d) d).
  change (rev [templatesDirName] ++ cleanStack (rooted d) d)
    with (templatesDirName :: cleanStack (rooted d) d).
  now apply render_push.
Qed.

Lemma templates_not_dot (d : string) : Join [d; templatesDirName] <> ".".
Proof.
  rewrite (Join_real d [templatesDirName]);
    [|discriminate | repeat constructor].
  apply render_not_dot, wfStack_push;
    [repeat constructor | apply cleanStack_wf].
Qed.

Lemma readTemplates_cons (chart : FS) (d : string) (f : file)
    (es : list file) (acc : list (go.ptr loader.BufferedFile)) :
  readTemplates chart d (f :: es) acc
  = if IsDir f then readTemplates chart d es acc
    else
      match readFile chart (Join [d; templatesDirName; Name f]) d with
      | (_, Some err) => ([], Some err)
      | (file, None) => readTemplates chart d es (acc ++ [file])
      end.
Proof.
  cbn [readTemplates]. destruct (IsDir f); [reflexivity|].
  now destruct (readFile chart (Join [d; templatesDirName; Name f]) d)
    as [file [err|]].
Qed.

Lemma readTemplates_ok (chart : FS) (d : string) (es : list file)
    (acc : list (go.ptr loader.BufferedFile)) :
  (forall fl, In fl es -> IsDir fl = false ->
     readFile chart (Join [d; templatesDirName; Name fl]) d
     = (templateOf fl, None)) ->
  readTemplates chart d es acc
  = (acc ++ map templateOf (filter regular es), None).
Proof.
  revert acc. induction es as [|f es IH]; intros acc H.
  - simpl. now rewrite app_nil_r.
  - rewrite readTemplates_cons. cbn [filter]. unfold regular at 1.
    destruct (IsDir f) eqn:Hd; cbn [negb].
    + apply IH. intros fl Hin. apply H. now right.
    + rewrite (H f) by (auto; now left).
      rewrite IH by (intros fl Hin; apply H; now right).
      cbn [map]. now rewrite <- app_assoc.
Qed.

(** [readChartFiles], one read after the other. *)
Lemma readChartFiles_eq (chart : FS) (d : string) :
  readChartFiles chart d
  = match ReadFile chart (Join [d; chartFileName]) with
    | (_, Some err) => ([], Some err)
    | (b1, None) =>
        match ReadFile chart (Join [d; valuesFileName]) with
        | (_, Some err) => ([], Some err)
        | (b2, None) =>
            match ReadDir chart (Join [d; templatesDirName]) with
            | (_, Some err) => ([], Some err)
            | (es, None) =>
                readTemplates chart d es
                  [buffered chartFileName b1; buffered valuesFileName b2]
            end
        end
    end.
Proof.
  unfold readChartFiles. cbn [readRequired].
  rewrite (readFile_Join chart d [chartFileName]);
    [|discriminate | repeat constructor].
  destruct (ReadFile chart (Join [d; chartFileName])) as [b1 [e1|]];
    [reflexivity|].
  rewrite (readFile_Join chart d [valuesFileName]);
    [|discriminate | repeat constructor].
  destruct (ReadFile chart (Join [d; valuesFileName])) as [b2 [e2|]];
    [reflexivity|].
  destruct (ReadDir chart (Join [d; templatesDirName])) as [es [e3|]];
    reflexivity.
Qed.

Variable chart : FS.
Hypothesis Hwf : wellFormed chart = true.

(** In a well-formed tree every regular file that a directory lists can
    be read under the directory's path joined with its name. *)
Lemma readFile_listed (d : string) (fl : file) :
  In fl (files chart) -> dirOf fl = Join [d; templatesDirName] ->
  IsDir fl = false ->
  realElem (Name fl) = true
  /\ name fl = Join [d; templatesDirName; Name fl]
  /\ readFile chart (Join [d; templatesDirName; Name fl]) d
     = (templateOf fl, None).
Proof.
  intros Hin Hdir Hreg.
  assert (Hnd : dirOf fl <> ".")
    by (rewrite Hdir; apply templates_not_dot).
  destruct (path_dirOf fl Hnd) as [Hp Hsf].
  destruct (wf_valid chart Hwf fl Hin) as [Hv _].
  rewrite Hp in Hv.
  pose proof (ValidPath_last _ _ Hsf Hv) as Hreal.
  assert (Hname : name fl = Join [d; templatesDirName; Name fl]).
  { rewrite Join_templates by assumption.
    rewrite (name_regular fl Hreg), Hp. now rewrite Hdir. }
  split; [assumption|]. split; [assumption|].
  change (Join [d; templatesDirName; Name fl])
    with (Join (d :: [templatesDirName; Name fl])).
  rewrite readFile_Join; [|discriminate | repeat constructor; assumption].
  change (Join (d :: [templatesDirName; Name fl]))
    with (Join [d; templatesDirName; Name fl]).
  rewrite <- Hname, (ReadFile_In chart Hwf fl Hin Hreg).
  reflexivity.
Qed.

Lemma readTemplates_listed (d : string)
    (acc : list (go.ptr loader.BufferedFile)) :
  readTemplates chart d (readDir chart (Join [d; templatesDirName])) acc
  = (acc ++ map templateOf
             (filter regular (readDir chart (Join [d; templatesDirName]))),
     None).
Proof.
  apply readTemplates_ok. intros fl Hin Hreg.
  apply readDir_In in Hin as [Hin Hdir].
  now apply readFile_listed.
Qed.

(** The collector on a valid chart. *)
Lemma readChartFiles_ok (d : string) (b1 b2 : list byte) (es : list file) :
  ReadFile chart (Join [d; chartFileName]) = (b1, None) ->
  ReadFile chart (Join [d; valuesFileName]) = (b2, None) ->
  ReadDir chart (Join [d; templatesDirName]) = (es, None) ->
  readChartFiles chart d
  = (buffered chartFileName b1 :: buffered valuesFileName b2
       :: map templateOf (filter regular es), None).
Proof.
  intros H1 H2 H3. rewrite readChartFiles_eq, H1, H2, H3.
  apply ReadDir_ok in H3 as [-> _].
  now rewrite readTemplates_listed.
Qed.

(** Whenever the collector succeeds, the chart was valid. *)
Lemma readChartFiles_ok_inv (d : string)
    (out : list (go.ptr loader.BufferedFile)) :
  readChartFiles chart d = (out, None) ->
  exists b1 b2 es,
    ReadFile chart (Join [d; chartFileName]) = (b1, None)
    /\ ReadFile chart (Join [d; valuesFileName]) = (b2, None)
    /\ ReadDir chart (Join [d; templatesDirName]) = (es, None)
    /\ out = buffered chartFileName b1 :: buffered valuesFileName b2
               :: map templateOf (filter regular es).
Proof.
  intros H. pose proof H as H'. rewrite readChartFiles_eq in H'.
  destruct (ReadFile chart (Join [d; chartFileName])) as [b1 [e1|]] eqn:E1;
    [discriminate|].
  destruct (ReadFile chart (Join [d; valuesFileName])) as [b2 [e2|]] eqn:E2;
    [discriminate|].
  destruct (ReadDir chart (Join [d; templatesDirName])) as [es [e3|]] eqn:E3;
    [discriminate|].
  exists b1, b2, es. repeat split.
  rewrite (readChartFiles_ok d b1 b2 es E1 E2 E3) in H. now injection H.
Qed.

End CollectorFacts.

Section MoreCollectorFacts.

Import filepath embed helm.

Lemma Join_slash (d x : string) :
  Join [d; ("templates/" ++ x)%string] = Join [d; templatesDirName; x].
Proof. destruct d; reflexivity. Qed.

Lemma named_templates (x : string) (l : list file) :
  filter (named ("templates/" ++ x)) (map templateOf l)
  = map templateOf (filter (fun g => Name g =? x) l).
Proof.
  induction l as [|g l IH]; [reflexivity|].
  cbn [map filter]. rewrite IH.
  unfold templateOf at 1, buffered, named. cbn [loader.Name].
  rewrite (eqb_append_head "templates/").
  now destruct (Name g =? x).
Qed.

Lemma templateOf_inj (f g : file) :
  loader.Name {| loader.Name := ("templates/" ++ Name g)%string;
                 loader.Data := go.bytes_of (data g) |}
  = ("templates/" ++ Name f)%string ->
  Name g = Name f.
Proof. cbn [loader.Name]. apply append_inv_head. Qed.

Variable chart : FS.
Hypothesis Hwf : wellFormed chart = true.

Lemma NoDup_paths : NoDup (map path (files chart)).
Proof.
  apply distinct_NoDup. unfold wellFormed in Hwf.
  apply andb_prop in Hwf as [H _]. now apply andb_prop in H as [_ H].
Qed.

Lemma path_readDir (p : string) :
  p <> "." ->
  map path (readDir chart p)
  = map (fun nm => (p ++ String "/" nm)%string) (map Name (readDir chart p)).
Proof.
  intros Hp. rewrite map_map. apply map_ext_in.
  intros fl Hin. apply readDir_In in Hin as [_ Hdir].
  subst p. now apply path_dirOf.
Qed.

Lemma NoDup_names (p : string) :
  p <> "." -> NoDup (map Name (readDir chart p)).
Proof.
  intros Hp.
  apply (NoDup_map_inv (fun nm => (p ++ String "/" nm)%string)).
  rewrite <- path_readDir by assumption.
  apply NoDup_map_filter, NoDup_paths.
Qed.

Lemma same_name_same_file (p : string) (f g : file) :
  p <> "." -> In f (readDir chart p) -> In g (readDir chart p) ->
  Name g = Name f -> g = f.
Proof.
  intros Hp Hf Hg Hn.
  apply readDir_In in Hf as [Hf Hdf], Hg as [Hg Hdg].
  apply (wf_inj chart Hwf); try assumption.
  destruct (path_dirOf f) as [-> _]; [congruence|].
  destruct (path_dirOf g) as [-> _]; [congruence|].
  congruence.
Qed.

End MoreCollectorFacts.

(** * The claims about the collector *)

(** C1: for every well-formed embedded tree with a valid chart at
    [chartDirName] (both required files readable at the chart root and the
    templates directory listable), whatever [chartDirName] is and however
    deep it lies, [readChartFiles] succeeds with a sequence whose first two
    entries are named exactly [Chart.yaml] and [values.yaml], names which do
    not start with [<chartDirName>/]; every entry is a buffered file whose
    [Name] is the path of the file it was read from relative to
    [chartDirName], and is one of the names the loader looks for, in which
    [chartDirName] plays no part. *)
Theorem C1_names_relative_to_chart_dir
    (chart : embed.FS) (chartDirName : string) (b1 b2 : list byte)
    (dirs : list embed.file) :
  embed.wellFormed chart = true ->
  embed.ReadFile chart (filepath.Join [chartDirName; helm.chartFileName])
  = (b1, None) ->
  embed.ReadFile chart (filepath.Join [chartDirName; helm.valuesFileName])
  = (b2, None) ->
  embed.ReadDir chart (filepath.Join [chartDirName; helm.templatesDirName])
  = (dirs, None) ->
  exists rest,
    helm.readChartFiles chart chartDirName
    = (buffered "Chart.yaml" b1 :: buffered "values.yaml" b2 :: rest, None)
    /\ String.prefix (chartDirName ++ "/") "Chart.yaml" = false
    /\ String.prefix (chartDirName ++ "/") "values.yaml" = false
    /\ forall file,
         In file
           (buffered "Chart.yaml" b1 :: buffered "values.yaml" b2 :: rest) ->
         exists bf,
           file = Some bf
           /\ filepath.Rel chartDirName
                (filepath.Join [chartDirName; loader.Name bf])
              = (loader.Name bf, None)
           /\ embed.ReadFile chart
                (filepath.Join [chartDirName; loader.Name bf])
              = (loader.Data bf, None)
           /\ loaderName (loader.Name bf).
Proof.
  intros Hwf H1 H2 H3.
  exists (map templateOf (filter regular dirs)).
  split; [now apply readChartFiles_ok|].
  assert (Hpre : forall nm,
             filepath.sepFree nm = true ->
             String.prefix (chartDirName ++ "/") nm = false).
  { intros nm Hnm. destruct (String.prefix _ nm) eqn:E; [|reflexivity].
    apply prefix_sep in E. congruence. }
  split; [now apply Hpre|]. split; [now apply Hpre|].
  intros file [<-|[<-|Hin]].
  - eexists. split; [reflexivity|]. cbn [loader.Name loader.Data].
    split; [|split; [exact H1 | now left]].
    apply (Rel_Join chartDirName ["Chart.yaml"]);
      [discriminate | repeat constructor].
  - eexists. split; [reflexivity|]. cbn [loader.Name loader.Data].
    split; [|split; [exact H2 | right; now left]].
    apply (Rel_Join chartDirName ["values.yaml"]);
      [discriminate | repeat constructor].
  - apply in_map_iff in Hin as (fl & <- & Hin).
    apply filter_In in Hin as [Hin Hreg].
    apply negb_true_iff in Hreg.
    apply ReadDir_ok in H3 as [-> _].
    apply readDir_In in Hin as [Hin Hdir].
    destruct (readFile_listed chart Hwf chartDirName fl Hin Hdir Hreg)
      as (Hreal & Hname & _).
    eexists. split; [reflexivity|]. cbn [loader.Name loader.Data].
    rewrite Join_slash. split; [|split].
    + apply (Rel_Join chartDirName [helm.templatesDirName; embed.Name fl]);
        [discriminate | repeat constructor; assumption].
    + rewrite <- Hname. now apply ReadFile_In.
    + right; right. eauto.
Qed.

Lemma C1_witness :
  embed.wellFormed demoTree = true
  /\ embed.ReadFile demoTree
       (filepath.Join ["charts/demo"; helm.chartFileName])
     = (go.bytes_of "name: demo", None)
  /\ embed.ReadFile demoTree
       (filepath.Join ["charts/demo"; helm.valuesFileName])
     = (go.bytes_of "replicas: 1", None)
  /\ embed.ReadDir demoTree
       (filepath.Join ["charts/demo"; helm.templatesDirName])
     = (embed.readDir demoTree "charts/demo/templates", None)
  /\ exists rest,
       helm.readChartFiles demoTree "charts/demo"
       = (buffered "Chart.yaml" (go.bytes_of "name: demo")
            :: buffered "values.yaml" (go.bytes_of "replicas: 1") :: rest,
          None)
       /\ String.prefix ("charts/demo" ++ "/") "Chart.yaml" = false
       /\ String.prefix ("charts/demo" ++ "/") "values.yaml" = false
       /\ forall file,
            In file (buffered "Chart.yaml" (go.bytes_of "name: demo")
                       :: buffered "values.yaml" (go.bytes_of "replicas: 1")
                       :: rest) ->
            exists bf,
              file = Some bf
              /\ filepath.Rel "charts/demo"
                   (filepath.Join ["charts/demo"; loader.Name bf])
                 = (loader.Name bf, None)
              /\ embed.ReadFile demoTree
                   (filepath.Join ["charts/demo"; loader.Name bf])
                 = (loader.Data bf, None)
              /\ loaderName (loader.Name bf).
Proof.
  split; [reflexivity|]. split; [reflexivity|].
  split; [reflexivity|]. split; [reflexivity|].
  apply (C1_names_relative_to_chart_dir demoTree "charts/demo"
           (go.bytes_of "name: demo") (go.bytes_of "replicas: 1")
           (embed.readDir demoTree "charts/demo/templates"));
    reflexivity.
Defined.

(** C2: whenever [readChartFiles] succeeds on a well-formed tree, its
    result is exactly [Chart.yaml], [values.yaml] and then one buffered file
    for each regular file of the templates listing, in the order of the
    listing, with nothing else; and in the scenario of the specification the
    result is exactly the three entries given there, in that order. *)
Theorem C2_exact_sequence_in_listing_order :
  (forall (chart : embed.FS) (chartDirName : string)
          (chartFiles : list (go.ptr loader.BufferedFile)),
      embed.wellFormed chart = true ->
      helm.readChartFiles chart chartDirName = (chartFiles, None) ->
      exists b1 b2 dirs,
        embed.ReadFile chart
          (filepath.Join [chartDirName; helm.chartFileName]) = (b1, None)
        /\ embed.ReadFile chart
             (filepath.Join [chartDirName; helm.valuesFileName]) = (b2, None)
        /\ embed.ReadDir chart
             (filepath.Join [chartDirName; helm.templatesDirName])
           = (dirs, None)
        /\ chartFiles
           = buffered "Chart.yaml" b1 :: buffered "values.yaml" b2
               :: map templateOf (filter regular dirs))
  /\ helm.readChartFiles demoTree "charts/demo"
     = ([ buffered "Chart.yaml" (go.bytes_of "name: demo");
          buffered "values.yaml" (go.bytes_of "replicas: 1");
          buffered "templates/svc.yaml" (go.bytes_of "kind: Service") ],
        None).
Proof.
  split; [|reflexivity].
  intros chart chartDirName chartFiles Hwf H.
  now apply readChartFiles_ok_inv.
Qed.

Lemma C2_witness :
  embed.wellFormed demoTree = true
  /\ helm.readChartFiles demoTree "charts/demo"
     = ([ buffered "Chart.yaml" (go.bytes_of "name: demo");
          buffered "values.yaml" (go.bytes_of "replicas: 1");
          buffered "templates/svc.yaml" (go.bytes_of "kind: Service") ],
        None)
  /\ exists b1 b2 dirs,
       embed.ReadFile demoTree
         (filepath.Join ["charts/demo"; helm.chartFileName]) = (b1, None)
       /\ embed.ReadFile demoTree
            (filepath.Join ["charts/demo"; helm.valuesFileName]) = (b2, None)
       /\ embed.ReadDir demoTree
            (filepath.Join ["charts/demo"; helm.templatesDirName])
          = (dirs, None)
       /\ [ buffered "Chart.yaml" (go.bytes_of "name: demo");
            buffered "values.yaml" (go.bytes_of "replicas: 1");
            buffered "templates/svc.yaml" (go.bytes_of "kind: Service") ]
          = buffered "Chart.yaml" b1 :: buffered "values.yaml" b2
              :: map templateOf (filter regular dirs).
Proof.
  split; [reflexivity|]. split; [reflexivity|].
  apply (proj1 C2_exact_sequence_in_listing_order demoTree "charts/demo");
    reflexivity.
Defined.

(** A read that is known to fail decides the match on its result. *)
Ltac failed_read H :=
  match type of H with
  | snd ?r = Some _ =>
      destruct r as [? [?|]]; simpl in H;
      [injection H as ->; reflexivity | discriminate H]
  end.

(** C3: if reading [Chart.yaml] at the chart root fails, [readChartFiles]
    returns no files and that error, whatever else the tree holds; if
    [Chart.yaml] is read and reading [values.yaml] fails, it returns no
    files and that error; and when the failing file is missing from the
    tree, the error is the not-found error of the open, for its path. *)
Theorem C3_required_file_failure_aborts
    (chart : embed.FS) (chartDirName : string) :
  (forall err,
      snd (embed.ReadFile chart
             (filepath.Join [chartDirName; helm.chartFileName])) = Some err ->
      helm.readChartFiles chart chartDirName = ([], Some err))
  /\ (forall b1 err,
         embed.ReadFile chart
           (filepath.Join [chartDirName; helm.chartFileName]) = (b1, None) ->
         snd (embed.ReadFile chart
                (filepath.Join [chartDirName; helm.valuesFileName]))
         = Some err ->
         helm.readChartFiles chart chartDirName = ([], Some err))
  /\ (embed.lookup chart (filepath.Join [chartDirName; helm.chartFileName])
      = None ->
      helm.readChartFiles chart chartDirName
      = ([], Some (go.PathError "open"
                     (filepath.Join [chartDirName; helm.chartFileName])
                     go.ErrNotExist)))
  /\ (forall b1,
         embed.ReadFile chart
           (filepath.Join [chartDirName; helm.chartFileName]) = (b1, None) ->
         embed.lookup chart
           (filepath.Join [chartDirName; helm.valuesFileName]) = None ->
         helm.readChartFiles chart chartDirName
         = ([], Some (go.PathError "open"
                        (filepath.Join [chartDirName; helm.valuesFileName])
                        go.ErrNotExist))).
Proof.
  assert (Hc : forall err,
             snd (embed.ReadFile chart
                    (filepath.Join [chartDirName; helm.chartFileName]))
             = Some err ->
             helm.readChartFiles chart chartDirName = ([], Some err)).
  { intros err H. rewrite readChartFiles_eq. failed_read H. }
  assert (Hv : forall b1 err,
             embed.ReadFile chart
               (filepath.Join [chartDirName; helm.chartFileName])
             = (b1, None) ->
             snd (embed.ReadFile chart
                    (filepath.Join [chartDirName; helm.valuesFileName]))
             = Some err ->
             helm.readChartFiles chart chartDirName = ([], Some err)).
  { intros b1 err H1 H. rewrite readChartFiles_eq, H1. failed_read H. }
  repeat split; try assumption.
  - intros H. apply Hc. now rewrite ReadFile_missing.
  - intros b1 H1 H. apply (Hv b1); [assumption|].
    now rewrite ReadFile_missing.
Qed.

Lemma C3_witness :
  embed.ReadFile demoNoValues
    (filepath.Join ["charts/demo"; helm.chartFileName])
  = (go.bytes_of "name: demo", None)
  /\ embed.lookup demoNoValues
       (filepath.Join ["charts/demo"; helm.valuesFileName]) = None
  /\ helm.readChartFiles demoNoValues "charts/demo"
     = ([], Some (go.PathError "open" "charts/demo/values.yaml"
                    go.ErrNotExist)).
Proof.
  split; [reflexivity|]. split; [reflexivity|].
  apply (proj2 (proj2 (proj2
           (C3_required_file_failure_aborts demoNoValues "charts/demo")))
           (go.bytes_of "name: demo"));
    reflexivity.
Defined.

(** C4: if both required files are read and listing the templates
    directory fails, [readChartFiles] returns no files and the error of the
    listing; when the directory is missing from the tree that error is the
    not-found error of the open, and the result is not the two-entry
    sequence. *)
Theorem C4_missing_templates_is_failure
    (chart : embed.FS) (chartDirName : string) (b1 b2 : list byte) :
  embed.ReadFile chart (filepath.Join [chartDirName; helm.chartFileName])
  = (b1, None) ->
  embed.ReadFile chart (filepath.Join [chartDirName; helm.valuesFileName])
  = (b2, None) ->
  (forall err,
      snd (embed.ReadDir chart
             (filepath.Join [chartDirName; helm.templatesDirName]))
      = Some err ->
      helm.readChartFiles chart chartDirName = ([], Some err))
  /\ (embed.lookup chart
        (filepath.Join [chartDirName; helm.templatesDirName]) = None ->
      helm.readChartFiles chart chartDirName
      = ([], Some (go.PathError "open"
                     (filepath.Join [chartDirName; helm.templatesDirName])
                     go.ErrNotExist))
      /\ helm.readChartFiles chart chartDirName
         <> ([buffered "Chart.yaml" b1; buffered "values.yaml" b2], None)).
Proof.
  intros H1 H2.
  assert (Hd : forall err,
             snd (embed.ReadDir chart
                    (filepath.Join [chartDirName; helm.templatesDirName]))
             = Some err ->
             helm.readChartFiles chart chartDirName = ([], Some err)).
  { intros err H. rewrite readChartFiles_eq, H1, H2. failed_read H. }
  split; [assumption|].
  intros H. rewrite (Hd (go.PathError "open"
                           (filepath.Join [chartDirName; helm.templatesDirName])
                           go.ErrNotExist)).
  - split; [reflexivity | discriminate].
  - now rewrite ReadDir_missing.
Qed.

Lemma C4_witness :
  embed.ReadFile demoNoTemplates
    (filepath.Join ["charts/demo"; helm.chartFileName])
  = (go.bytes_of "name: demo", None)
  /\ embed.ReadFile demoNoTemplates
       (filepath.Join ["charts/demo"; helm.valuesFileName])
     = (go.bytes_of "replicas: 1", None)
  /\ embed.lookup demoNoTemplates
       (filepath.Join ["charts/demo"; helm.templatesDirName]) = None
  /\ helm.readChartFiles demoNoTemplates "charts/demo"
     = ([], Some (go.PathError "open" "charts/demo/templates"
                    go.ErrNotExist))
  /\ helm.readChartFiles demoNoTemplates "charts/demo"
     <> ([ buffered "Chart.yaml" (go.bytes_of "name: demo");
           buffered "values.yaml" (go.bytes_of "replicas: 1") ], None).
Proof.
  split; [reflexivity|]. split; [reflexivity|]. split; [reflexivity|].
  apply (proj2 (C4_missing_templates_is_failure demoNoTemplates "charts/demo"
                  (go.bytes_of "name: demo") (go.bytes_of "replicas: 1")
                  eq_refl eq_refl)).
  reflexivity.
Defined.

(** C5: whenever [readChartFiles] succeeds on a well-formed tree, then for
    every entry of the templates listing: if it is a sub-directory, no
    returned file bears its name and none lies below it; if it is a regular
    file, exactly one returned file is named [templates/<name>], and it is
    the buffered file with the bytes of that file. *)
Theorem C5_directories_skipped_files_once
    (chart : embed.FS) (chartDirName : string)
    (chartFiles : list (go.ptr loader.BufferedFile)) :
  embed.wellFormed chart = true ->
  helm.readChartFiles chart chartDirName = (chartFiles, None) ->
  exists dirs,
    embed.ReadDir chart (filepath.Join [chartDirName; helm.templatesDirName])
    = (dirs, None)
    /\ forall f, In f dirs ->
         if embed.IsDir f then
           forall bf, In (Some bf) chartFiles ->
             loader.Name bf <> ("templates/" ++ embed.Name f)%string
             /\ String.prefix ("templates/" ++ embed.Name f ++ "/")
                  (loader.Name bf) = false
         else
           filter (named ("templates/" ++ embed.Name f)) chartFiles
           = [buffered ("templates/" ++ embed.Name f)
                (go.bytes_of (embed.data f))]
           /\ embed.ReadFile chart (embed.name f)
              = (go.bytes_of (embed.data f), None).
Proof.
  intros Hwf H.
  apply (readChartFiles_ok_inv chart Hwf) in H
    as (b1 & b2 & dirs & _ & _ & Hd & ->).
  exists dirs. split; [assumption|].
  apply ReadDir_ok in Hd as [-> _].
  set (p := filepath.Join [chartDirName; helm.templatesDirName]).
  assert (Hp : p <> ".") by apply templates_not_dot.
  intros f Hf. destruct (embed.IsDir f) eqn:Hdir.
  - intros bf [Hin|[Hin|Hin]];
      try (injection Hin as <-; split; [discriminate | reflexivity]).
    apply in_map_iff in Hin as (g & Hg & Hin).
    assert (Hbf : bf = {| loader.Name := ("templates/" ++ embed.Name g)%string;
                          loader.Data := go.bytes_of (embed.data g) |})
      by (unfold templateOf, buffered in Hg; congruence).
    subst bf. clear Hg.
    apply filter_In in Hin as [Hin Hreg]. apply negb_true_iff in Hreg.
    split.
    + intros Heq. apply templateOf_inj in Heq.
      apply (same_name_same_file chart Hwf p f g Hp Hf Hin) in Heq.
      congruence.
    + cbn [loader.Name].
      rewrite (prefix_append_head "templates/").
      destruct (String.prefix _ _) eqn:E; [|reflexivity].
      apply prefix_sep in E.
      apply readDir_In in Hin as [Hin Hdg].
      destruct (path_dirOf g) as [_ Hsf]; congruence.
  - assert (Hreg : In f (filter regular (embed.readDir chart p))).
    { apply filter_In. split; [assumption|].
      unfold regular. now rewrite Hdir. }
    split.
    + cbn [filter named buffered loader.Name
             String.eqb Ascii.eqb Bool.eqb].
      rewrite named_templates.
      rewrite (filter_unique embed.Name _ f); [reflexivity | | assumption].
      apply NoDup_map_filter, NoDup_names; assumption.
    + apply readDir_In in Hf as [Hf _]. now apply ReadFile_In.
Qed.

Lemma C5_witness :
  embed.wellFormed demoTree = true
  /\ helm.readChartFiles demoTree "charts/demo"
     = ([ buffered "Chart.yaml" (go.bytes_of "name: demo");
          buffered "values.yaml" (go.bytes_of "replicas: 1");
          buffered "templates/svc.yaml" (go.bytes_of "kind: Service") ],
        None)
  /\ exists dirs,
       embed.ReadDir demoTree
         (filepath.Join ["charts/demo"; helm.templatesDirName])
       = (dirs, None)
       /\ forall f, In f dirs ->
            if embed.IsDir f then
              forall bf,
                In (Some bf)
                  [ buffered "Chart.yaml" (go.bytes_of "name: demo");
                    buffered "values.yaml" (go.bytes_of "replicas: 1");
                    buffered "templates/svc.yaml"
                      (go.bytes_of "kind: Service") ] ->
                loader.Name bf <> ("templates/" ++ embed.Name f)%string
                /\ String.prefix ("templates/" ++ embed.Name f ++ "/")
                     (loader.Name bf) = false
            else
              filter (named ("templates/" ++ embed.Name f))
                [ buffered "Chart.yaml" (go.bytes_of "name: demo");
                  buffered "values.yaml" (go.bytes_of "replicas: 1");
                  buffered "templates/svc.yaml"
                    (go.bytes_of "kind: Service") ]
              = [buffered ("templates/" ++ embed.Name f)
                   (go.bytes_of (embed.data f))]
              /\ embed.ReadFile demoTree (embed.name f)
                 = (go.bytes_of (embed.data f), None).
Proof.
  split; [reflexivity|]. split; [reflexivity|].
  apply (C5_directories_skipped_files_once demoTree "charts/demo");
    reflexivity.
Defined.

(** C6: in a well-formed tree whose required files are readable, if a
    regular file named [x] under [<chartDirName>/templates] is read with
    content [B], then [readChartFiles] succeeds and exactly one of the files
    it returns is named [templates/x]; its data is [B]. *)
Theorem C6_template_round_trip
    (chart : embed.FS) (chartDirName x : string) (b1 b2 B : list byte) :
  embed.wellFormed chart = true ->
  filepath.realElem x = true ->
  embed.ReadFile chart (filepath.Join [chartDirName; helm.chartFileName])
  = (b1, None) ->
  embed.ReadFile chart (filepath.Join [chartDirName; helm.valuesFileName])
  = (b2, None) ->
  embed.ReadFile chart
    (filepath.Join [chartDirName; helm.templatesDirName; x]) = (B, None) ->
  exists chartFiles,
    helm.readChartFiles chart chartDirName = (chartFiles, None)
    /\ filter (named ("templates/" ++ x)) chartFiles
       = [buffered ("templates/" ++ x) B].
Proof.
  intros Hwf Hx H1 H2 H3.
  set (p := filepath.Join [chartDirName; helm.templatesDirName]).
  assert (Hp : p <> ".") by apply templates_not_dot.
  apply ReadFile_ok in H3 as (fl & Hl & Hreg & ->).
  rewrite Join_templates in Hl by assumption. fold p in Hl.
  apply lookup_Some in Hl as [Hin Hpath]; [|apply app_sep_not_dot].
  assert (Hsf : filepath.sepFree x = true)
    by now apply realElem_inv in Hx.
  destruct (dirOf_path fl p x Hpath Hsf) as [Hdir Hname].
  destruct (wf_parent chart Hwf fl Hin) as (g & Hg & Hgn);
    [congruence|].
  rewrite Hdir in Hgn.
  assert (Hgd : embed.IsDir g = true)
    by (rewrite IsDir_cutSlash, Hgn, cutSlash_snoc; reflexivity).
  assert (Hgp : embed.path g = p)
    by (unfold embed.path, embed.trimSlash; now rewrite Hgn, cutSlash_snoc).
  pose proof (ReadDir_In chart Hwf g Hg Hgd) as Hrd. rewrite Hgp in Hrd.
  eexists. split;
    [exact (readChartFiles_ok chart Hwf chartDirName b1 b2 _ H1 H2 Hrd)|].
  assert (Hfl : In fl (filter regular (embed.readDir chart p))).
  { apply filter_In. split.
    - now apply readDir_In.
    - unfold regular. now rewrite Hreg. }
  cbn [filter named buffered loader.Name String.eqb Ascii.eqb Bool.eqb].
  rewrite named_templates, <- Hname.
  rewrite (filter_unique embed.Name _ fl); [reflexivity | | assumption].
  now apply NoDup_map_filter, NoDup_names.
Qed.

Lemma C6_witness :
  embed.wellFormed demoTree = true
  /\ filepath.realElem "svc.yaml" = true
  /\ embed.ReadFile demoTree
       (filepath.Join ["charts/demo"; helm.chartFileName])
     = (go.bytes_of "name: demo", None)
  /\ embed.ReadFile demoTree
       (filepath.Join ["charts/demo"; helm.valuesFileName])
     = (go.bytes_of "replicas: 1", None)
  /\ embed.ReadFile demoTree
       (filepath.Join ["charts/demo"; helm.templatesDirName; "svc.yaml"])
     = (go.bytes_of "kind: Service", None)
  /\ exists chartFiles,
       helm.readChartFiles demoTree "charts/demo" = (chartFiles, None)
       /\ filter (named ("templates/" ++ "svc.yaml")) chartFiles
          = [buffered ("templates/" ++ "svc.yaml")
               (go.bytes_of "kind: Service")].
Proof.
  split; [reflexivity|]. split; [reflexivity|]. split; [reflexivity|].
  split; [reflexivity|]. split; [reflexivity|].
  apply (C6_template_round_trip demoTree "charts/demo" "svc.yaml"
           (go.bytes_of "name: demo") (go.bytes_of "replicas: 1"));
    reflexivity.
Defined.

(** C7: [readChartFiles] depends on the tree only through what
    [ReadFile] and [ReadDir] answer: two calls with the same chart directory
    on trees that answer every read alike (in particular, on the same,
    unchanged tree) return the same files, in the same order, with the same
    content, or the same error. *)
Theorem C7_same_reads_same_result
    (chart1 chart2 : embed.FS) (chartDirName : string) :
  (forall nm, embed.ReadFile chart1 nm = embed.ReadFile chart2 nm) ->
  (forall nm, embed.ReadDir chart1 nm = embed.ReadDir chart2 nm) ->
  helm.readChartFiles chart1 chartDirName
  = helm.readChartFiles chart2 chartDirName.
Proof.
  intros HF HD.
  assert (Hfile : forall filename pathPrefix,
             helm.readFile chart1 filename pathPrefix
             = helm.readFile chart2 filename pathPrefix).
  { intros filename pathPrefix. unfold helm.readFile. now rewrite HF. }
  assert (Hreq : forall names acc,
             helm.readRequired chart1 chartDirName names acc
             = helm.readRequired chart2 chartDirName names acc).
  { induction names as [|f names IH]; intros acc; [reflexivity|].
    cbn [helm.readRequired]. rewrite Hfile.
    destruct (helm.readFile chart2 _ chartDirName) as [file [err|]];
      [reflexivity | apply IH]. }
  assert (Htpl : forall dirs acc,
             helm.readTemplates chart1 chartDirName dirs acc
             = helm.readTemplates chart2 chartDirName dirs acc).
  { induction dirs as [|f dirs IH]; intros acc; [reflexivity|].
    rewrite !readTemplates_cons, Hfile.
    destruct (embed.IsDir f); [apply IH|].
    destruct (helm.readFile chart2 _ chartDirName) as [file [err|]];
      [reflexivity | apply IH]. }
  unfold helm.readChartFiles. rewrite Hreq, HD.
  destruct (helm.readRequired chart2 _ _ _) as [chartFiles [err|]];
    [reflexivity|].
  destruct (embed.ReadDir chart2 _) as [dirs [err|]];
    [reflexivity | apply Htpl].
Qed.

Lemma C7_witness :
  (forall nm, embed.ReadFile demoTree nm = embed.ReadFile demoTree nm)
  /\ (forall nm, embed.ReadDir demoTree nm = embed.ReadDir demoTree nm)
  /\ helm.readChartFiles demoTree "charts/demo"
     = helm.readChartFiles demoTree "charts/demo".
Proof.
  split; [reflexivity|]. split; [reflexivity|].
  apply (C7_same_reads_same_result demoTree demoTree "charts/demo");
    reflexivity.
Defined.

(** C8: for every chart directory and every non-empty sequence of real
    path elements, relativizing the joined path against the directory
    succeeds and gives back the elements, so that an error of [readFile] on
    such a path can only be the error of the read; on a well-formed tree no
    error of [readChartFiles] comes from the relativization; and if the
    relativization does fail, [readFile] returns no file and that error. *)
Theorem C8_relativization_cannot_fail
    (chart : embed.FS) (chartDirName : string) (suffix : list string) :
  suffix <> [] ->
  Forall (fun e => filepath.realElem e = true) suffix ->
  filepath.Rel chartDirName (filepath.Join (chartDirName :: suffix))
  = (String.concat "/" suffix, None)
  /\ (forall err,
         snd (helm.readFile chart (filepath.Join (chartDirName :: suffix))
                chartDirName) = Some err ->
         snd (embed.ReadFile chart (filepath.Join (chartDirName :: suffix)))
         = Some err)
  /\ (embed.wellFormed chart = true ->
      forall err,
        snd (helm.readChartFiles chart chartDirName) = Some err ->
        exists op nm inner, err = go.PathError op nm inner)
  /\ (forall filename pathPrefix bytes err,
         embed.ReadFile chart filename = (bytes, None) ->
         snd (filepath.Rel pathPrefix filename) = Some err ->
         helm.readFile chart filename pathPrefix = (go.nil, Some err)).
Proof.
  intros Hne Hsuf. split; [now apply Rel_Join|]. split; [|split].
  - intros err. rewrite readFile_Join by assumption.
    now destruct (embed.ReadFile chart _) as [b [e|]].
  - intros Hwf err. rewrite readChartFiles_eq.
    assert (HF : forall nm b e,
               embed.ReadFile chart nm = (b, Some e) ->
               exists op nm' inner, e = go.PathError op nm' inner).
    { intros nm b e. unfold embed.ReadFile, embed.Open.
      destruct (embed.lookup chart nm) as [fl|].
      - destruct (embed.IsDir fl); intros H; [|discriminate].
        injection H as _ <-. eauto.
      - intros H. injection H as _ <-. eauto. }
    assert (HD : forall nm l e,
               embed.ReadDir chart nm = (l, Some e) ->
               exists op nm' inner, e = go.PathError op nm' inner).
    { intros nm l e. unfold embed.ReadDir, embed.Open.
      destruct (embed.lookup chart nm) as [fl|].
      - destruct (embed.IsDir fl); intros H; [discriminate|].
        injection H as _ <-. eauto.
      - intros H. injection H as _ <-. eauto. }
    destruct (embed.ReadFile chart
                (filepath.Join [chartDirName; helm.chartFileName]))
      as [b1 [e1|]] eqn:E1.
    { simpl. intros H. injection H as <-. eauto. }
    destruct (embed.ReadFile chart
                (filepath.Join [chartDirName; helm.valuesFileName]))
      as [b2 [e2|]] eqn:E2.
    { simpl. intros H. injection H as <-. eauto. }
    destruct (embed.ReadDir chart
                (filepath.Join [chartDirName; helm.templatesDirName]))
      as [dirs [e3|]] eqn:E3.
    { simpl. intros H. injection H as <-. eauto. }
    apply ReadDir_ok in E3 as [-> _].
    rewrite readTemplates_listed by assumption. discriminate.
  - intros filename pathPrefix bytes err HR Herr. unfold helm.readFile.
    rewrite HR. destruct (filepath.Rel pathPrefix filename) as [rel [e|]];
      simpl in Herr; [now injection Herr as -> | discriminate].
Qed.

Lemma C8_witness :
  ["templates"; "svc.yaml"] <> []
  /\ Forall (fun e => filepath.realElem e = true) ["templates"; "svc.yaml"]
  /\ filepath.Rel "charts/demo"
       (filepath.Join ["charts/demo"; "templates"; "svc.yaml"])
     = ("templates/svc.yaml", None).
Proof.
  split; [discriminate|]. split; [repeat constructor|].
  apply (C8_relativization_cannot_fail demoTree "charts/demo"
           ["templates"; "svc.yaml"]);
    [discriminate | repeat constructor].
Defined.

(** The error branch of [readFile] is live: a prefix that the file name
    cannot be made relative to gives no file and the error of [Rel]. *)
Example readFile_reports_Rel_error :
  helm.readFile demoTree "charts/demo/Chart.yaml" "/charts"
  = (go.nil, Some (filepath.relError "/charts" "charts/demo/Chart.yaml")).
Proof.
  reflexivity.
Qed.

(** * Fetching the values of a release *)

Section FetchFacts.

Context {Configuration EnvSettings DebugLog Values W : Type}.
Variable zeroConfiguration : Configuration.
Variable sdk : helm.SDK Configuration EnvSettings DebugLog Values W.

Lemma run_a (config : go.ptr Configuration) (name : string) (w : W) :
  helm.run sdk (helm.a config name) w
  = let query := helm.StatusRun (helm.NewStatus config) name in
    let '(r, w1) := helm.answerTo sdk query w in
    (match r with
     | (_, Some err) => helm.Returned (go.nil, Some err)
     | (Some release, None) => helm.Returned (helm.Config release, None)
     | (None, None) =>
         helm.Panicked "invalid memory address or nil pointer dereference"
     end, w1, [query]).
Proof.
  unfold helm.a. cbn.
  destruct (helm.answerTo sdk _ w) as [[release [err|]] w1];
    destruct release; reflexivity.
Qed.

(** C9: run against any cluster, [FetchChartValues] first initializes
    the action configuration for the namespace; if that fails it returns
    no values and that error, having made no other call; otherwise it
    makes exactly one more call, the status query for the named release on
    the initialized configuration, and returns the release's [Config] with
    no error, or no values and the error of the query.  It never makes more
    than one status query.  (A query that answers neither a release nor an
    error makes the read of [Config] panic.) *)
Theorem C9_single_status_query
    (namespace name : string) (settings : go.ptr EnvSettings)
    (uiLogger : DebugLog) (w : W) :
  let init :=
    helm.InitActionConfig (Some zeroConfiguration) namespace settings
      uiLogger in
  let fetched :=
    helm.run sdk
      (helm.FetchChartValues zeroConfiguration namespace name settings
         uiLogger) w in
  match helm.answerTo sdk init w with
  | ((_, Some err), w1) =>
      fetched = (helm.Returned (go.nil, Some err), w1, [init])
  | ((cfg, None), w1) =>
      let query := helm.StatusRun (helm.NewStatus cfg) name in
      length (filter helm.isStatusRun (snd fetched)) = 1
      /\ match helm.answerTo sdk query w1 with
         | ((_, Some err), w2) =>
             fetched = (helm.Returned (go.nil, Some err), w2, [init; query])
         | ((Some release, None), w2) =>
             fetched
             = (helm.Returned (helm.Config release, None), w2,
                [init; query])
         | ((None, None), w2) =>
             fetched
             = (helm.Panicked
                  "invalid memory address or nil pointer dereference",
                w2, [init; query])
         end
  end
  /\ length (filter helm.isStatusRun (snd fetched)) <= 1.
Proof.
  cbn.
  destruct (helm.answerTo sdk _ w) as [[cfg [err|]] w1].
  - destruct cfg; split; try reflexivity; cbn; lia.
  - cbn.
    destruct (helm.answerTo sdk _ w1) as [[release [err|]] w2];
      destruct release; cbn; repeat split; lia.
Qed.

(** C10: once the initialization has answered a configuration and no
    error, [FetchChartValues] goes on exactly as [a] does on that
    configuration and the same release name: the same outcome (values and
    error), the same world, the same calls after the initialization. *)
Theorem C10_a_is_status_part
    (namespace name : string) (settings : go.ptr EnvSettings)
    (uiLogger : DebugLog) (w w1 : W) (config : go.ptr Configuration) :
  helm.answerTo sdk
    (helm.InitActionConfig (Some zeroConfiguration) namespace settings
       uiLogger) w
  = ((config, None), w1) ->
  helm.run sdk
    (helm.FetchChartValues zeroConfiguration namespace name settings
       uiLogger) w
  = let '(result, w2, calls) := helm.run sdk (helm.a config name) w1 in
    (result, w2,
     helm.InitActionConfig (Some zeroConfiguration) namespace settings
       uiLogger :: calls).
Proof.
  intros Hinit. rewrite run_a. cbn. rewrite Hinit. cbn.
  destruct (helm.answerTo sdk _ w1) as [[release [err|]] w2];
    destruct release; reflexivity.
Qed.

End FetchFacts.

Lemma C10_witness :
  helm.answerTo demoSDK (helm.InitActionConfig (Some "") "consul" None tt) 0
  = ((Some "consul", None), 1)
  /\ helm.run demoSDK (helm.FetchChartValues "" "consul" "demo" None tt) 0
     = let '(result, w2, calls) :=
         helm.run demoSDK (helm.a (Some "consul") "demo") 1 in
       (result, w2,
        helm.InitActionConfig (Some "") "consul" None tt :: calls).
Proof.
  split; [reflexivity|].
  apply (C10_a_is_status_part "" demoSDK "consul" "demo" None tt 0 1
           (Some "consul")).
  reflexivity.
Defined.

Example FetchChartValues_demo :
  helm.run demoSDK (helm.FetchChartValues "" "consul" "demo" None tt) 0
  = (helm.Returned (Some [("release", "demo")], None), 2,
     [ helm.InitActionConfig (Some "") "consul" None tt;
       helm.StatusRun (helm.NewStatus (Some "consul")) "demo" ]).
Proof. reflexivity. Qed.

(** * Further properties of the collector *)

Section CollectorShape.

Import filepath embed helm.

Variable chart : FS.
Variable chartDirName : string.

(** [readFile] returns either a file and no error, or no file and an
    error. *)
Lemma readFile_cases (filename pathPrefix : string) :
  (exists bf,
      readFile chart filename pathPrefix = (Some bf, None)
      /\ ReadFile chart filename = (loader.Data bf, None)
      /\ Rel pathPrefix filename = (loader.Name bf, None))
  \/ (exists err, readFile chart filename pathPrefix = (go.nil, Some err)).
Proof.
  unfold readFile.
  destruct (ReadFile chart filename) as [bytes [err|]]; [right; eauto|].
  destruct (Rel pathPrefix filename) as [rel [err|]]; [right; eauto|].
  left. eexists. repeat split.
Qed.

(** The templates loop only appends: on success the files it was given
    come first, unchanged, followed by one file for each regular entry, in
    order; on failure it returns no files. *)
Lemma readTemplates_shape (dirs : list file)
    (acc : list (go.ptr loader.BufferedFile)) :
  match readTemplates chart chartDirName dirs acc with
  | (chartFiles, None) =>
      exists rest,
        chartFiles = acc ++ rest
        /\ Forall2 (collectedFrom chart chartDirName) (filter regular dirs) rest
  | (chartFiles, Some _) => chartFiles = []
  end.
Proof.
  revert acc. induction dirs as [|f dirs IH]; intros acc.
  - simpl. exists []. split; [now rewrite app_nil_r | constructor].
  - rewrite readTemplates_cons. cbn [filter]. unfold regular at 1.
    destruct (IsDir f); cbn [negb]; [apply IH|].
    destruct (readFile_cases (Join [chartDirName; templatesDirName; Name f])
                chartDirName) as [(bf & -> & HR & HL)|(err & ->)];
      [|reflexivity].
    cbv beta iota.
    specialize (IH (acc ++ @cons (go.ptr loader.BufferedFile) (Some bf) [])).
    destruct (readTemplates chart chartDirName dirs _)
      as [chartFiles [err|]]; [exact IH|].
    destruct IH as (rest & -> & Hrest).
    exists (Some bf :: rest). split; [now rewrite <- app_assoc|].
    constructor; [|assumption]. exists bf. auto.
Qed.

End CollectorShape.

(** X1: on any tree, well-formed or not, [readChartFiles] returns either an
    error and no file at all (also when a read fails in the middle of the
    templates loop), or no error and the buffered [Chart.yaml], the buffered
    [values.yaml] and then, for each regular entry of the templates listing
    in order, a non-nil file with the bytes read at the joined path and the
    name [Rel] gives it. *)
Theorem readChartFiles_all_or_nothing
    (chart : embed.FS) (chartDirName : string) :
  match helm.readChartFiles chart chartDirName with
  | (chartFiles, Some _) => chartFiles = []
  | (chartFiles, None) =>
      exists b1 b2 dirs rest,
        embed.ReadFile chart
          (filepath.Join [chartDirName; helm.chartFileName]) = (b1, None)
        /\ embed.ReadFile chart
             (filepath.Join [chartDirName; helm.valuesFileName]) = (b2, None)
        /\ embed.ReadDir chart
             (filepath.Join [chartDirName; helm.templatesDirName])
           = (dirs, None)
        /\ chartFiles
           = buffered "Chart.yaml" b1 :: buffered "values.yaml" b2 :: rest
        /\ Forall2 (collectedFrom chart chartDirName)
             (filter regular dirs) rest
        /\ Forall (fun file => file <> go.nil) chartFiles
  end.
Proof.
  rewrite readChartFiles_eq.
  destruct (embed.ReadFile chart
              (filepath.Join [chartDirName; helm.chartFileName]))
    as [b1 [e1|]]; [reflexivity|].
  destruct (embed.ReadFile chart
              (filepath.Join [chartDirName; helm.valuesFileName]))
    as [b2 [e2|]]; [reflexivity|].
  destruct (embed.ReadDir chart
              (filepath.Join [chartDirName; helm.templatesDirName]))
    as [dirs [e3|]]; [reflexivity|].
  pose proof (readTemplates_shape chart chartDirName dirs
                [buffered helm.chartFileName b1;
                 buffered helm.valuesFileName b2]) as H.
  destruct (helm.readTemplates chart chartDirName dirs _)
    as [chartFiles [err|]]; [assumption|].
  destruct H as (rest & -> & Hrest).
  exists b1, b2, dirs, rest. repeat split; try assumption.
  repeat (constructor; [discriminate|]).
  clear - Hrest. induction Hrest as [|f o fs os (bf & -> & _) _ IH];
    constructor; [discriminate | assumption].
Qed.

Section SpellingFacts.

Import filepath embed helm.

Lemma cleanStack_render (r : bool) (st : list string) :
  wfStack r st -> cleanStack r (render r st) = st.
Proof.
  intros Hst. unfold cleanStack.
  rewrite elems_render, fold_left_app by assumption.
  replace (fold_left (cleanElem r) (if r then [""] else []) [])
    with (@nil string) by now destruct r.
  now apply wfStack_refold.
Qed.

Lemma render_empty (r : bool) (st : list string) :
  wfStack r st -> render r st = "" -> r = false /\ st = [].
Proof.
  intros Hst H. pose proof (elems_render r st Hst) as Hel.
  rewrite H in Hel. simpl in Hel.
  destruct r; [discriminate|]. split; [reflexivity|].
  simpl in Hel. destruct st as [|e st]; [reflexivity|].
  simpl in Hel. destruct (rev st); discriminate.
Qed.

(** The cleaned directory has the same cleaned elements as the directory,
    and is rooted when the directory is. *)
Lemma Clean_same_stack (d : string) :
  rooted (Clean d) = rooted d
  /\ cleanStack (rooted d) (Clean d) = cleanStack (rooted d) d.
Proof.
  pose proof (cleanStack_wf (rooted d) d) as Hst.
  rewrite Clean_eq. unfold renderDot.
  destruct (render (rooted d) (cleanStack (rooted d) d) =? "") eqn:E.
  - apply String.eqb_eq in E.
    destruct (render_empty _ _ Hst E) as [Hr Hs].
    rewrite Hs, Hr. split; reflexivity.
  - split; [now apply rooted_render | now apply cleanStack_render].
Qed.

Lemma Join_Clean (d : string) (fs : list string) :
  fs <> [] -> Forall (fun e => realElem e = true) fs ->
  Join (Clean d :: fs) = Join (d :: fs).
Proof.
  intros Hne Hfs. rewrite !Join_real by assumption.
  destruct (Clean_same_stack d) as [Hr Hs]. now rewrite Hr, Hs.
Qed.

End SpellingFacts.

(** X2: on a well-formed tree the collector does not depend on how the
    chart directory is spelled: a trailing slash, [./], doubled slashes or
    [x/..] detours in [chartDirName] give the same result as its cleaned
    form (and the empty name the same as ["."]). *)
Theorem readChartFiles_cleaned_dir
    (chart : embed.FS) (chartDirName : string) :
  embed.wellFormed chart = true ->
  helm.readChartFiles chart (filepath.Clean chartDirName)
  = helm.readChartFiles chart chartDirName.
Proof.
  intros Hwf.
  assert (HJ : forall fs,
             fs <> [] -> Forall (fun e => filepath.realElem e = true) fs ->
             filepath.Join (filepath.Clean chartDirName :: fs)
             = filepath.Join (chartDirName :: fs))
    by apply Join_Clean.
  rewrite !readChartFiles_eq.
  rewrite (HJ [helm.chartFileName]), (HJ [helm.valuesFileName]),
    (HJ [helm.templatesDirName]);
    try discriminate; try (repeat constructor).
  destruct (embed.ReadFile chart
              (filepath.Join [chartDirName; helm.chartFileName]))
    as [b1 [e1|]]; [reflexivity|].
  destruct (embed.ReadFile chart
              (filepath.Join [chartDirName; helm.valuesFileName]))
    as [b2 [e2|]]; [reflexivity|].
  destruct (embed.ReadDir chart
              (filepath.Join [chartDirName; helm.templatesDirName]))
    as [dirs [e3|]] eqn:E; [reflexivity|].
  apply ReadDir_ok in E as [-> _].
  rewrite (readTemplates_listed chart Hwf chartDirName).
  rewrite <- (HJ [helm.templatesDirName]);
    [|discriminate | repeat constructor].
  apply (readTemplates_listed chart Hwf (filepath.Clean chartDirName)).
Qed.

Lemma readChartFiles_cleaned_dir_witness :
  embed.wellFormed demoTree = true
  /\ helm.readChartFiles demoTree (filepath.Clean "./charts/x/../demo//")
     = helm.readChartFiles demoTree "./charts/x/../demo//".
Proof.
  split; [reflexivity|].
  apply (readChartFiles_cleaned_dir demoTree "./charts/x/../demo//").
  reflexivity.
Defined.

Section NamesFacts.

Import filepath embed helm.

Lemma NoDup_map_append (s : string) (l : list string) :
  NoDup l -> NoDup (map (String.append s) l).
Proof.
  induction 1 as [|x l Hx _ IH]; simpl; constructor; [|assumption].
  intros Hin. apply in_map_iff in Hin as (y & Hy & Hin).
  apply append_inv_head in Hy. now subst y.
Qed.

End NamesFacts.

(** X3: on a well-formed tree the files that the collector returns have
    pairwise different names. *)
Theorem readChartFiles_names_distinct
    (chart : embed.FS) (chartDirName : string)
    (chartFiles : list (go.ptr loader.BufferedFile)) :
  embed.wellFormed chart = true ->
  helm.readChartFiles chart chartDirName = (chartFiles, None) ->
  NoDup (map nameOf chartFiles).
Proof.
  intros Hwf H.
  apply (readChartFiles_ok_inv chart Hwf) in H
    as (b1 & b2 & dirs & _ & _ & Hd & ->).
  apply ReadDir_ok in Hd as [-> _].
  set (l := filter regular (embed.readDir chart _)).
  assert (Hnames : map nameOf (map templateOf l)
                   = map (String.append "templates/") (map embed.Name l)).
  { rewrite !map_map. apply map_ext. reflexivity. }
  assert (Hfresh : forall nm,
             filepath.sepFree nm = true ->
             ~ In nm (map nameOf (map templateOf l))).
  { intros nm Hnm Hin. rewrite Hnames in Hin.
    apply in_map_iff in Hin as (e & <- & _).
    change ("templates/" ++ e)%string
      with ("templates" ++ String "/" e)%string in Hnm.
    now rewrite sepFree_app_sep in Hnm. }
  cbn [map nameOf buffered loader.Name].
  constructor.
  - intros [Heq|Hin]; [discriminate|]. now apply (Hfresh "Chart.yaml").
  - constructor; [now apply Hfresh|].
    rewrite Hnames. apply NoDup_map_append.
    apply NoDup_map_filter, (NoDup_names chart Hwf), templates_not_dot.
Qed.

Lemma readChartFiles_names_distinct_witness :
  embed.wellFormed demoTree = true
  /\ helm.readChartFiles demoTree "charts/demo"
     = ([ buffered "Chart.yaml" (go.bytes_of "name: demo");
          buffered "values.yaml" (go.bytes_of "replicas: 1");
          buffered "templates/svc.yaml" (go.bytes_of "kind: Service") ],
        None)
  /\ NoDup ["Chart.yaml"; "values.yaml"; "templates/svc.yaml"].
Proof.
  split; [reflexivity|]. split; [reflexivity|].
  apply (readChartFiles_names_distinct demoTree "charts/demo"
           [ buffered "Chart.yaml" (go.bytes_of "name: demo");
             buffered "values.yaml" (go.bytes_of "replicas: 1");
             buffered "templates/svc.yaml" (go.bytes_of "kind: Service") ]);
    reflexivity.
Defined.

Section OutsideFacts.

Import filepath embed helm.

Lemma ValidPath_rooted (s : string) : fs.ValidPath (String "/" s) = false.
Proof.
  rewrite ValidPath_eq, fields_cons. reflexivity.
Qed.

Lemma ValidPath_dotdot (s : string) :
  fs.ValidPath (".." ++ String "/" s) = false.
Proof.
  rewrite ValidPath_eq.
  pose proof (app_sep_not_dot ".." s) as H. apply String.eqb_neq in H.
  rewrite H, fields_app_sep. reflexivity.
Qed.

Lemma lookup_invalid (chart : FS) (nm : string) :
  fs.ValidPath nm = false -> lookup chart nm = None.
Proof. unfold lookup. now intros ->. Qed.

(** Joining onto a rooted directory, or onto one whose cleaned form
    begins with [..], gives a path that is not valid in an embedded tree. *)
Lemma Join_outside (d : string) (fs : list string) :
  fs <> [] -> Forall (fun e => realElem e = true) fs ->
  rooted d = true \/ hd "" (elems (Clean d)) = ".." ->
  fs.ValidPath (Join (d :: fs)) = false.
Proof.
  intros Hne Hfs Hout. rewrite Join_real by assumption.
  pose proof (cleanStack_wf (rooted d) d) as Hst.
  destruct (rooted d) eqn:Hr.
  - unfold render. apply ValidPath_rooted.
  - destruct Hout as [Hout|Hout]; [discriminate|].
    rewrite Clean_eq, Hr in Hout. unfold renderDot in Hout.
    destruct (render false (cleanStack false d) =? "") eqn:E;
      [discriminate|].
    rewrite elems_render in Hout by assumption. simpl app in Hout.
    unfold render. rewrite rev_app_distr, rev_involutive. simpl append.
    destruct (rev (cleanStack false d)) as [|e es]; [discriminate|].
    simpl in Hout. subst e.
    destruct (es ++ fs) as [|y ys] eqn:Ey.
    { apply app_eq_nil in Ey as [_ ->]. congruence. }
    change ((".." :: es) ++ fs) with (".." :: (es ++ fs)).
    rewrite Ey, concat_cons2.
    apply ValidPath_dotdot.
Qed.

End OutsideFacts.

(** X4: a chart directory outside the embedded tree is never found: when
    [chartDirName] is an absolute path, or its cleaned form begins with
    [..], [readChartFiles] returns no file and the not-found error of
    opening [Chart.yaml], whatever the tree holds. *)
Theorem readChartFiles_outside_tree
    (chart : embed.FS) (chartDirName : string) :
  filepath.rooted chartDirName = true
  \/ hd "" (filepath.elems (filepath.Clean chartDirName)) = ".." ->
  helm.readChartFiles chart chartDirName
  = ([], Some (go.PathError "open"
                 (filepath.Join [chartDirName; helm.chartFileName])
                 go.ErrNotExist)).
Proof.
  intros Hout. rewrite readChartFiles_eq.
  rewrite ReadFile_missing; [reflexivity|].
  apply lookup_invalid.
  apply (Join_outside chartDirName [helm.chartFileName]);
    [discriminate | repeat constructor | assumption].
Qed.

Lemma readChartFiles_outside_tree_witness :
  (filepath.rooted "/charts/demo" = true
   \/ hd "" (filepath.elems (filepath.Clean "/charts/demo")) = "..")
  /\ helm.readChartFiles demoTree "/charts/demo"
     = ([], Some (go.PathError "open" "/charts/demo/Chart.yaml"
                    go.ErrNotExist)).
Proof.
  split; [left; reflexivity|].
  apply (readChartFiles_outside_tree demoTree "/charts/demo").
  left. reflexivity.
Defined.

(** X5: a file of the wrong kind is a read error.  If [templates] at the
    chart root is a regular file, [readChartFiles] returns no file and the
    "not a directory" read error for it; if [Chart.yaml] is a directory, it
    returns no file and the "is a directory" read error for it. *)
Theorem readChartFiles_wrong_kind
    (chart : embed.FS) (chartDirName : string) :
  (forall b1 b2 b3,
      embed.ReadFile chart
        (filepath.Join [chartDirName; helm.chartFileName]) = (b1, None) ->
      embed.ReadFile chart
        (filepath.Join [chartDirName; helm.valuesFileName]) = (b2, None) ->
      embed.ReadFile chart
        (filepath.Join [chartDirName; helm.templatesDirName]) = (b3, None) ->
      helm.readChartFiles chart chartDirName
      = ([], Some (go.PathError "read"
                     (filepath.Join [chartDirName; helm.templatesDirName])
                     (go.errorString "not a directory"))))
  /\ (forall dirs,
         embed.ReadDir chart
           (filepath.Join [chartDirName; helm.chartFileName])
         = (dirs, None) ->
         helm.readChartFiles chart chartDirName
         = ([], Some (go.PathError "read"
                        (filepath.Join [chartDirName; helm.chartFileName])
                        (go.errorString "is a directory")))).
Proof.
  split.
  - intros b1 b2 b3 H1 H2 H3. rewrite readChartFiles_eq, H1, H2.
    apply ReadFile_ok in H3 as (fl & Hl & Hreg & _).
    unfold embed.ReadDir, embed.Open. now rewrite Hl, Hreg.
  - intros dirs H. rewrite readChartFiles_eq.
    apply ReadDir_ok in H as (_ & fl & Hl & Hdir).
    unfold embed.ReadFile, embed.Open. now rewrite Hl, Hdir.
Qed.

Lemma readChartFiles_wrong_kind_witness :
  (embed.ReadFile demoTemplatesIsFile
     (filepath.Join ["charts/demo"; helm.templatesDirName])
   = (go.bytes_of "oops", None)
   /\ helm.readChartFiles demoTemplatesIsFile "charts/demo"
      = ([], Some (go.PathError "read" "charts/demo/templates"
                     (go.errorString "not a directory"))))
  /\ (embed.ReadDir demoChartIsDir
        (filepath.Join ["charts/demo"; helm.chartFileName])
      = (embed.readDir demoChartIsDir "charts/demo/Chart.yaml", None)
      /\ helm.readChartFiles demoChartIsDir "charts/demo"
         = ([], Some (go.PathError "read" "charts/demo/Chart.yaml"
                        (go.errorString "is a directory")))).
Proof.
  split; (split; [reflexivity|]).
  - apply (proj1 (readChartFiles_wrong_kind demoTemplatesIsFile
                    "charts/demo")
             (go.bytes_of "name: demo") (go.bytes_of "replicas: 1")
             (go.bytes_of "oops"));
      reflexivity.
  - apply (proj2 (readChartFiles_wrong_kind demoChartIsDir "charts/demo")
             (embed.readDir demoChartIsDir "charts/demo/Chart.yaml")).
    reflexivity.
Defined.

(** X6: the collector reads nothing but the two required files, the
    templates listing and the regular files that it lists: two trees that
    answer those reads alike give the same result, whatever else they hold
    (other directories, the contents of sub-directories of [templates]). *)
Theorem readChartFiles_reads_only_the_chart
    (chart1 chart2 : embed.FS) (chartDirName : string) :
  embed.ReadFile chart1 (filepath.Join [chartDirName; helm.chartFileName])
  = embed.ReadFile chart2 (filepath.Join [chartDirName; helm.chartFileName]) ->
  embed.ReadFile chart1 (filepath.Join [chartDirName; helm.valuesFileName])
  = embed.ReadFile chart2 (filepath.Join [chartDirName; helm.valuesFileName]) ->
  embed.ReadDir chart1 (filepath.Join [chartDirName; helm.templatesDirName])
  = embed.ReadDir chart2
      (filepath.Join [chartDirName; helm.templatesDirName]) ->
  (forall f,
      In f (fst (embed.ReadDir chart1
                   (filepath.Join [chartDirName; helm.templatesDirName]))) ->
      embed.IsDir f = false ->
      embed.ReadFile chart1
        (filepath.Join [chartDirName; helm.templatesDirName; embed.Name f])
      = embed.ReadFile chart2
          (filepath.Join
             [chartDirName; helm.templatesDirName; embed.Name f])) ->
  helm.readChartFiles chart1 chartDirName
  = helm.readChartFiles chart2 chartDirName.
Proof.
  intros H1 H2 H3 H4. rewrite !readChartFiles_eq, <- H1, <- H2, <- H3.
  destruct (embed.ReadFile chart1
              (filepath.Join [chartDirName; helm.chartFileName]))
    as [b1 [e1|]]; [reflexivity|].
  destruct (embed.ReadFile chart1
              (filepath.Join [chartDirName; helm.valuesFileName]))
    as [b2 [e2|]]; [reflexivity|].
  destruct (embed.ReadDir chart1
              (filepath.Join [chartDirName; helm.templatesDirName]))
    as [dirs [e3|]]; [reflexivity|].
  simpl fst in H4. clear H1 H2 H3.
  generalize [buffered helm.chartFileName b1;
              buffered helm.valuesFileName b2].
  induction dirs as [|f dirs IH]; intros acc; [reflexivity|].
  rewrite !readTemplates_cons.
  destruct (embed.IsDir f) eqn:Hdir.
  - apply IH. intros g Hg. apply H4. now right.
  - unfold helm.readFile. rewrite <- (H4 f) by (auto; now left).
    destruct (embed.ReadFile chart1 _) as [bytes [err|]]; [reflexivity|].
    destruct (filepath.Rel chartDirName _) as [rel [err|]]; [reflexivity|].
    apply IH. intros g Hg. apply H4. now right.
Qed.

Lemma readChartFiles_reads_only_the_chart_witness :
  embed.ReadFile demoTree (filepath.Join ["charts/demo"; helm.chartFileName])
  = embed.ReadFile demoTreeMore
      (filepath.Join ["charts/demo"; helm.chartFileName])
  /\ embed.ReadFile demoTree
       (filepath.Join ["charts/demo"; helm.valuesFileName])
     = embed.ReadFile demoTreeMore
         (filepath.Join ["charts/demo"; helm.valuesFileName])
  /\ embed.ReadDir demoTree
       (filepath.Join ["charts/demo"; helm.templatesDirName])
     = embed.ReadDir demoTreeMore
         (filepath.Join ["charts/demo"; helm.templatesDirName])
  /\ (forall f,
         In f (fst (embed.ReadDir demoTree
                      (filepath.Join ["charts/demo"; helm.templatesDirName])))
         ->
         embed.IsDir f = false ->
         embed.ReadFile demoTree
           (filepath.Join ["charts/demo"; helm.templatesDirName; embed.Name f])
         = embed.ReadFile demoTreeMore
             (filepath.Join
                ["charts/demo"; helm.templatesDirName; embed.Name f]))
  /\ embed.ReadFile demoTree "charts/demo/templates/sub/deep.yaml"
     <> embed.ReadFile demoTreeMore "charts/demo/templates/sub/deep.yaml"
  /\ helm.readChartFiles demoTree "charts/demo"
     = helm.readChartFiles demoTreeMore "charts/demo".
Proof.
  assert (H4 : forall f,
             In f (fst (embed.ReadDir demoTree
                          (filepath.Join
                             ["charts/demo"; helm.templatesDirName]))) ->
             embed.IsDir f = false ->
             embed.ReadFile demoTree
               (filepath.Join
                  ["charts/demo"; helm.templatesDirName; embed.Name f])
             = embed.ReadFile demoTreeMore
                 (filepath.Join
                    ["charts/demo"; helm.templatesDirName; embed.Name f])).
  { intros f [<-|[<-|[]]] Hdir; [discriminate Hdir | reflexivity]. }
  split; [reflexivity|]. split; [reflexivity|]. split; [reflexivity|].
  split; [exact H4|]. split; [discriminate|].
  apply (readChartFiles_reads_only_the_chart demoTree demoTreeMore
           "charts/demo");
    [reflexivity | reflexivity | reflexivity | exact H4].
Defined.

(** * Loading the chart *)

Section LoadFacts.

Context {Chart : Type}.
Variable LoadFiles :
  list (go.ptr loader.BufferedFile) -> go.ptr Chart * option go.error.

(** X7: on a well-formed tree with a valid chart, [LoadChart] answers
    what the loader answers on exactly [Chart.yaml], [values.yaml] and the
    regular files of the templates listing, in that order, be it a chart or
    the loader's own error; and when a required file is missing it returns
    no chart and the not-found error, without regard to the loader. *)
Theorem LoadChart_loads_collected_files
    (chart : embed.FS) (chartDirName : string) :
  embed.wellFormed chart = true ->
  (forall b1 b2 dirs,
      embed.ReadFile chart
        (filepath.Join [chartDirName; helm.chartFileName]) = (b1, None) ->
      embed.ReadFile chart
        (filepath.Join [chartDirName; helm.valuesFileName]) = (b2, None) ->
      embed.ReadDir chart
        (filepath.Join [chartDirName; helm.templatesDirName])
      = (dirs, None) ->
      helm.LoadChart LoadFiles chart chartDirName
      = LoadFiles (buffered "Chart.yaml" b1 :: buffered "values.yaml" b2
                     :: map templateOf (filter regular dirs)))
  /\ (forall err,
         snd (helm.readChartFiles chart chartDirName) = Some err ->
         helm.LoadChart LoadFiles chart chartDirName = (go.nil, Some err)).
Proof.
  intros Hwf. split.
  - intros b1 b2 dirs H1 H2 H3. unfold helm.LoadChart.
    now rewrite (readChartFiles_ok chart Hwf chartDirName b1 b2 dirs).
  - intros err H. unfold helm.LoadChart.
    destruct (helm.readChartFiles chart chartDirName) as [fs [e|]];
      simpl in H; [now injection H as -> | discriminate].
Qed.

End LoadFacts.

Lemma LoadChart_loads_collected_files_witness :
  embed.wellFormed demoTree = true
  /\ helm.LoadChart namesLoader demoTree "charts/demo"
     = (Some ["Chart.yaml"; "values.yaml"; "templates/svc.yaml"], None).
Proof.
  split; [reflexivity|].
  apply (proj1 (LoadChart_loads_collected_files namesLoader demoTree
                  "charts/demo" eq_refl)
           (go.bytes_of "name: demo") (go.bytes_of "replicas: 1")
           (embed.readDir demoTree "charts/demo/templates"));
    reflexivity.
Defined.

(** * The helper [a] *)

Section StatusFacts.

Context {Configuration EnvSettings DebugLog Values W : Type}.
Variable sdk : helm.SDK Configuration EnvSettings DebugLog Values W.


End StatusFacts.

(** * [readFile] on a prefix that is not an ancestor *)

Section ClimbFacts.

Import filepath embed helm.

Lemma Clean_real (es : list string) :
  es <> [] -> Forall (fun e => realElem e = true) es ->
  Clean (String.concat "/" es) = String.concat "/" es
  /\ elems (String.concat "/" es) = es
  /\ rooted (String.concat "/" es) = false.
Proof.
  intros Hne Hes.
  assert (Hwf : wfStack false (rev es ++ []))
    by (apply wfStack_push; [assumption | constructor]).
  rewrite app_nil_r in Hwf.
  assert (Hr : render false (rev es) = String.concat "/" es)
    by (unfold render; now rewrite rev_involutive).
  rewrite <- Hr. split; [|split].
  - rewrite Clean_render by assumption.
    pose proof (renderDot_push false es [] Hne Hes (wf_nil _)) as H.
    now rewrite app_nil_r in H.
  - rewrite elems_render by assumption. now rewrite rev_involutive.
  - now apply rooted_render.
Qed.

(** A relative path is made relative to a relative directory with which
    it shares no first element by climbing out of the directory. *)
Lemma Rel_disjoint (p q : string) (ps qs : list string) :
  Forall (fun e => realElem e = true) (p :: ps) ->
  Forall (fun e => realElem e = true) (q :: qs) ->
  p <> q ->
  Rel (String.concat "/" (p :: ps)) (String.concat "/" (q :: qs))
  = ((".." ++ dotdots (length ps) ++ "/" ++ String.concat "/" (q :: qs))%string,
     None).
Proof.
  intros Hps Hqs Hpq.
  destruct (Clean_real (p :: ps)) as (Hc1 & He1 & Hr1);
    [discriminate | assumption |].
  destruct (Clean_real (q :: qs)) as (Hc2 & He2 & Hr2);
    [discriminate | assumption |].
  unfold Rel. rewrite Hc1, Hc2.
  assert (Hne : (String.concat "/" (q :: qs) =? String.concat "/" (p :: ps))
                = false).
  { apply String.eqb_neq. intros H. apply (f_equal elems) in H.
    rewrite He1, He2 in H. congruence. }
  rewrite Hne.
  assert (Hnd : (String.concat "/" (p :: ps) =? ".") = false).
  { apply String.eqb_neq. intros H. apply (f_equal elems) in H.
    rewrite He1 in H. simpl in H. injection H as -> _.
    inversion Hps as [|? ? Hp _]; subst. discriminate. }
  rewrite Hnd, Hr1, Hr2, He1, He2. cbn [Bool.eqb negb relLoop].
  apply String.eqb_neq in Hpq. rewrite String.eqb_sym in Hpq. rewrite Hpq.
  inversion Hps as [|? ? Hp _]; subst.
  apply realElem_inv in Hp as (_ & _ & _ & Hp).
  apply String.eqb_neq in Hp. rewrite Hp.
  replace (length (p :: ps) - 1) with (length ps) by (simpl; lia).
  reflexivity.
Qed.

End ClimbFacts.

(** X9: [readFile] does not require the file to lie under the prefix.  For
    a relative prefix and a readable relative file name, both made of real
    elements and with different first elements, it returns the file's bytes
    under a name that climbs out of the prefix: one [..] for each element
    of the prefix, then the whole file name. *)
Theorem readFile_prefix_not_ancestor
    (chart : embed.FS) (p q : string) (ps qs : list string)
    (bytes : list byte) :
  Forall (fun e => filepath.realElem e = true) (p :: ps) ->
  Forall (fun e => filepath.realElem e = true) (q :: qs) ->
  p <> q ->
  embed.ReadFile chart (String.concat "/" (q :: qs)) = (bytes, None) ->
  helm.readFile chart (String.concat "/" (q :: qs))
    (String.concat "/" (p :: ps))
  = (buffered
       (".." ++ filepath.dotdots (length ps) ++ "/"
        ++ String.concat "/" (q :: qs))
       bytes,
     None).
Proof.
  intros Hps Hqs Hpq HR. unfold helm.readFile.
  now rewrite HR, Rel_disjoint.
Qed.

Lemma readFile_prefix_not_ancestor_witness :
  Forall (fun e => filepath.realElem e = true) ["other"; "place"]
  /\ Forall (fun e => filepath.realElem e = true)
       ["charts"; "demo"; "Chart.yaml"]
  /\ "other" <> "charts"
  /\ embed.ReadFile demoTree "charts/demo/Chart.yaml"
     = (go.bytes_of "name: demo", None)
  /\ helm.readFile demoTree "charts/demo/Chart.yaml" "other/place"
     = (buffered "../../charts/demo/Chart.yaml" (go.bytes_of "name: demo"),
        None).
Proof.
  split; [repeat constructor|]. split; [repeat constructor|].
  split; [discriminate|]. split; [reflexivity|].
  apply (readFile_prefix_not_ancestor demoTree "other" "charts"
           ["place"] ["demo"; "Chart.yaml"]);
    [repeat constructor | repeat constructor | discriminate | reflexivity].
Defined.
